(** * weathertrack: the Flask application of [app2.py]

    A shallow embedding of the request handlers of [app2.py] ([serve],
    [get_weather], [weather] and the two error handlers) and the proofs of
    the properties its specification states about them.

    The handlers are written in a small state-and-exception monad: the
    state is the log of the calls a request makes together with the file
    system, an exception is a Python exception that leaves the view
    function.  The helpers imported from [coordinates] and [weather2] are
    fields of a record [upstream]; Python values are the type [pyval]. *)

From stdpp Require Import gmap strings list.
From Stdlib Require Import ZArith QArith Ascii String Strings.Byte.

Set Warnings "-register-all".
Local Open Scope Z_scope.
Local Open Scope string_scope.

(** ** Python values and the operations the handlers apply to them *)

Module Py.

(** The values that reach the handlers: what [request.get_json()] and the
    helper functions return.  A dict keeps its keys in insertion order. *)
Inductive pyval : Type :=
| PNone
| PBool (b : bool)
| PInt (n : Z)
| PFloat (q : Q)
| PStr (s : string)
| PList (items : list pyval)
| PTuple (items : list pyval)
| PDict (entries : list (string * pyval)).

(** Exceptions, by class.  [HTTPException] is werkzeug's family
    ([NotFound] is [HTTPException 404 ...]); [OtherError] is any other
    class, such as what an HTTP client raises. *)
Inductive exn : Type :=
| TypeError (msg : string)
| AttributeError (msg : string)
| ValueError (msg : string)
| HTTPException (code : Z) (name description : string)
| OtherError (cls msg : string).

Inductive outcome (A : Type) : Type :=
| Ret (a : A)
| Raise (e : exn).
Arguments Ret {A} a.
Arguments Raise {A} e.

(** [type(v).__name__] *)
Definition type_name (v : pyval) : string :=
  match v with
  | PNone => "NoneType"
  | PBool _ => "bool"
  | PInt _ => "int"
  | PFloat _ => "float"
  | PStr _ => "str"
  | PList _ => "list"
  | PTuple _ => "tuple"
  | PDict _ => "dict"
  end.

Fixpoint digits (fuel : nat) (n : Z) (acc : string) : string :=
  match fuel with
  | O => acc
  | S fuel' =>
      let acc' := String (ascii_of_nat (48 + Z.to_nat (n mod 10))) acc in
      if (n / 10 =? 0)%Z then acc' else digits fuel' (n / 10) acc'
  end.

(** [str(n)] for an integer *)
Definition str_int (n : Z) : string :=
  if (n <? 0)%Z then "-" ++ digits (S (Z.to_nat (Z.log2 (- n)))) (- n) ""
  else digits (S (Z.to_nat (Z.log2 n))) n "".

(** [str(e)] *)
Definition str (e : exn) : string :=
  match e with
  | TypeError msg | AttributeError msg | ValueError msg => msg
  | HTTPException code name description =>
      str_int code ++ " " ++ name ++ ": " ++ description
  | OtherError _ msg => msg
  end.

(** [v is None] *)
Definition is_None (v : pyval) : bool :=
  match v with
  | PNone => true
  | _ => false
  end.

Fixpoint lookup_key (k : string) (entries : list (string * pyval)) : option pyval :=
  match entries with
  | [] => None
  | (k', v) :: rest => if String.eqb k k' then Some v else lookup_key k rest
  end.

(** [v.get(key)]: the dict method, with its default [None]; any other
    value has no attribute [get]. *)
Definition get (v : pyval) (key : string) : outcome pyval :=
  match v with
  | PDict entries =>
      match lookup_key key entries with
      | Some value => Ret value
      | None => Ret PNone
      end
  | _ => Raise (AttributeError
                  ("'" ++ type_name v ++ "' object has no attribute 'get'"))
  end.

Definition chars (s : string) : list pyval :=
  (fun a => PStr (String a EmptyString)) <$> list_ascii_of_string s.

(** What iterating over [v] yields, or [None] when [v] is not iterable. *)
Definition iterate (v : pyval) : option (list pyval) :=
  match v with
  | PList items | PTuple items => Some items
  | PStr s => Some (chars s)
  | PDict entries => Some ((fun e => PStr e.1) <$> entries)
  | PNone | PBool _ | PInt _ | PFloat _ => None
  end.

(** [a, b = v] *)
Definition unpack2 (v : pyval) : outcome (pyval * pyval) :=
  match iterate v with
  | None => Raise (TypeError
                     ("cannot unpack non-iterable " ++ type_name v ++ " object"))
  | Some [a; b] => Ret (a, b)
  | Some (_ :: _ :: _ :: _) =>
      Raise (ValueError "too many values to unpack (expected 2)")
  | Some items =>
      Raise (ValueError ("not enough values to unpack (expected 2, got "
                           ++ str_int (Z.of_nat (List.length items)) ++ ")"))
  end.

End Py.
Export Py.

(** ** The file system, as [os.path] and the file helpers see it *)

Inductive node : Type :=
| File (data : list byte)
| Dir.

(** The files are a listing of the whole tree: a key is the names from the
    root down, joined by ["/"], without a leading or trailing slash.  The
    root is the directory from which a relative path is resolved: it stands
    for ["/"], for the working directory and for the root path of the
    application at once.  There are no symbolic links, and neither
    permissions nor length limits get in the way. *)

(** [p.split('/')] *)
Fixpoint split_path (p : string) : list string :=
  match p with
  | EmptyString => [EmptyString]
  | String c rest =>
      if Ascii.eqb c "/" then EmptyString :: split_path rest
      else match split_path rest with
           | name :: names => String c name :: names
           | [] => [String c EmptyString]
           end
  end.

(** ['/'.join(names)] *)
Definition join_path (names : list string) : string := String.concat "/" names.

Definition has_null (p : string) : bool :=
  existsb (fun c => Ascii.eqb c Ascii.zero) (list_ascii_of_string p).

Fixpoint ends_with_slash (p : string) : bool :=
  match p with
  | EmptyString => false
  | String c EmptyString => Ascii.eqb c "/"
  | String _ rest => ends_with_slash rest
  end.

(** What is at the place [names] from the root: the entry of the listing,
    a directory where the listing has entries below that place, nothing
    otherwise.  The root is a directory. *)
Definition node_at (fs : gmap string node) (names : list string) : option node :=
  match names with
  | [] => Some Dir
  | _ =>
      match fs !! join_path names with
      | Some n => Some n
      | None =>
          if existsb (fun entry => String.prefix (join_path names ++ "/") entry.1)
                     (map_to_list fs)
          then Some Dir else None
      end
  end.

(** The walk of the system along the components of a path, from the place
    [place]: an empty component and ["."] stay, [".."] goes up (the root is
    its own parent), a name goes down; each step is taken from a directory,
    or the walk fails. *)
Fixpoint resolve (fs : gmap string node) (place : list string) (components : list string)
  : option (list string) :=
  match components with
  | [] => Some place
  | c :: rest =>
      match node_at fs place with
      | Some Dir =>
          if String.eqb c "" || String.eqb c "." then resolve fs place rest
          else if String.eqb c ".." then resolve fs (removelast place) rest
          else resolve fs (place ++ [c]) rest
      | _ => None
      end
  end.

(** [os.stat(p)], as far as the kind of the file and its contents go;
    [None] where it raises. *)
Definition stat (fs : gmap string node) (p : string) : option node :=
  if String.eqb p "" || has_null p then None
  else match resolve fs [] (split_path p) with
       | Some place => node_at fs place
       | None => None
       end.

(** [os.path.exists(p)]: true of files and of directories *)
Definition path_exists (fs : gmap string node) (p : string) : bool :=
  match stat fs p with
  | Some _ => true
  | None => false
  end.

(** [os.path.isfile(p)], with the contents of the file *)
Definition isfile (fs : gmap string node) (p : string) : option (list byte) :=
  match stat fs p with
  | Some (File data) => Some data
  | _ => None
  end.

(** One step of the loop of [posixpath.normpath] *)
Definition normpath_step (initial_slashes : nat) (new_comps : list string) (comp : string)
  : list string :=
  if String.eqb comp "" || String.eqb comp "." then new_comps
  else if negb (String.eqb comp "..")
          || (Nat.eqb initial_slashes 0 && bool_decide (new_comps = []))
          || bool_decide (last new_comps = Some "..")
       then new_comps ++ [comp]
       else removelast new_comps.

(** [posixpath.normpath(path)] *)
Definition normpath (path : string) : string :=
  if String.eqb path "" then "."
  else
    let initial_slashes :=
      if String.prefix "/" path
      then if String.prefix "//" path && negb (String.prefix "///" path)
           then 2%nat else 1%nat
      else 0%nat in
    let comps := fold_left (normpath_step initial_slashes) (split_path path) [] in
    let joined := String.concat "" (replicate initial_slashes "/") ++ join_path comps in
    if String.eqb joined "" then "." else joined.

(** [posixpath.join(a, b)] *)
Definition posix_join (a b : string) : string :=
  if String.prefix "/" b then b
  else if String.eqb a "" || ends_with_slash a then a ++ b
  else a ++ "/" ++ b.

(** werkzeug's [safe_join(directory, filename)]: the joined path, or [None]
    for a file name that would leave the directory. *)
Definition safe_join (directory filename : string) : option string :=
  let directory := if String.eqb directory "" then "." else directory in
  let filename := if String.eqb filename "" then filename else normpath filename in
  if String.prefix "/" filename || String.eqb filename ".." || String.prefix "../" filename
  then None
  else Some (posix_join directory filename).

(** A name without a slash in it *)
Definition no_slash (name : string) : Prop := ~ In "/"%char (list_ascii_of_string name).

(** A name that [normpath] keeps and that does not climb *)
Definition proper (name : string) : Prop :=
  name <> "" /\ name <> "." /\ name <> ".." /\ no_slash name.

(** ** Flask: responses *)

Inductive body : Type :=
| Json (payload : pyval)
| FileContents (path : string) (data : list byte)
| Html (text : string).

Record response : Type := { resp_body : body; status : Z }.

(** [jsonify] applied to keyword arguments: a JSON response whose payload
    is the dict of the arguments, status 200 *)
Definition jsonify (kwargs : list (string * pyval)) : response :=
  {| resp_body := Json (PDict kwargs); status := 200 |}.

(** A view that returns [(rv, code)] *)
Definition with_status (rv : response) (code : Z) : response :=
  {| resp_body := resp_body rv; status := code |}.

Definition NotFound : exn :=
  HTTPException 404 "Not Found"
    "The requested URL was not found on the server. If you entered the URL manually please check your spelling and try again.".

Definition BadRequest : exn :=
  HTTPException 400 "Bad Request"
    "The browser (or proxy) sent a request that this server could not understand.".

Definition UnsupportedMediaType : exn :=
  HTTPException 415 "Unsupported Media Type"
    "Did not attempt to load JSON data because the request Content-Type was not 'application/json'.".

(** What the body of a request is to [request.get_json()] *)
Inductive request_body : Type :=
| NotJson
| Unparsable
| JsonValue (value : pyval).

(** Flask's [request.get_json()], called as line 117 calls it, without
    [force] or [silent]: the value of a JSON body, [None] for the body
    [null]; [BadRequest] when the body is declared as JSON and cannot be
    parsed (an empty body is such a body); [UnsupportedMediaType] when the
    request has no JSON content type, which a request without a body does
    not have either (werkzeug 2.3 and later; [BadRequest] in Flask 2.1 and
    2.2, [None] before). *)
Definition request_get_json (b : request_body) : outcome pyval :=
  match b with
  | NotJson => Raise UnsupportedMediaType
  | Unparsable => Raise BadRequest
  | JsonValue value => Ret value
  end.

(** [send_from_directory(directory, path)]: the regular file at the safe join
    of the two, with status 200; [NotFound] when the path would leave the
    directory or what it names is not a regular file. *)
Definition send_from_directory (fs : gmap string node) (directory path : string)
  : outcome response :=
  match safe_join directory path with
  | None => Raise NotFound
  | Some full =>
      match isfile fs full with
      | Some data => Ret {| resp_body := FileContents full data; status := 200 |}
      | None => Raise NotFound
      end
  end.

(** ** The application's environment *)

(** The module-level configuration: the two keys read with [os.getenv] (a
    string, or [None] when the variable is unset) and the static folder of
    [Flask(__name__, static_folder='static')]. *)
Record config : Type := {
  GOOGLE_API_KEY : option string;
  OPENWEATHER_API_KEY : option string;
  static_folder : string
}.

(** The helpers imported from [coordinates] and [weather2]: each one returns
    a value or raises.  [get_location_from_google] takes its keyword argument
    [location] as an option, absent in the call of [weather].  [get_photo]
    may also change the file system. *)
Record upstream : Type := {
  get_location_from_google : option string -> option pyval -> outcome pyval;
  get_location_name : pyval -> pyval -> outcome pyval;
  get_place_id_from_coordinates : option string -> pyval -> pyval -> outcome pyval;
  get_current_weather : pyval -> pyval -> option string -> outcome pyval;
  get_five_day_forecast : pyval -> pyval -> option string -> outcome pyval;
  get_photo_reference : option string -> pyval -> outcome pyval;
  get_photo : pyval -> option string -> gmap string node
              -> outcome pyval * gmap string node
}.

(** What a request does besides answering: the calls of the helpers, with
    their arguments, and what it prints. *)
Inductive event : Type :=
| Call_get_location_from_google (api_key : option string) (location : option pyval)
| Call_get_location_name (latitude longitude : pyval)
| Call_get_place_id_from_coordinates (api_key : option string) (latitude longitude : pyval)
| Call_get_current_weather (latitude longitude : pyval) (api_key : option string)
| Call_get_five_day_forecast (latitude longitude : pyval) (api_key : option string)
| Call_get_photo_reference (api_key : option string) (place_id : pyval)
| Call_get_photo (photo_reference : pyval) (api_key : option string)
| Call_print (args : list pyval).

Record world : Type := {
  calls : list event;
  files : gmap string node
}.

(** ** The monad of the view functions: state [world], exceptions [exn] *)

Module View.

Definition M (A : Type) : Type := world -> outcome A * world.

Definition ret {A} (a : A) : M A := fun w => (Ret a, w).

Definition bind {A B} (m : M A) (k : A -> M B) : M B :=
  fun w =>
    match m w with
    | (Ret a, w') => k a w'
    | (Raise e, w') => (Raise e, w')
    end.

(** An operation without effect on the world *)
Definition lift {A} (o : outcome A) : M A := fun w => (o, w).

(** The world once [ev] is recorded *)
Definition logged (ev : event) (w : world) : world :=
  {| calls := calls w ++ [ev]; files := files w |}.

Definition log (ev : event) : M unit := fun w => (Ret tt, logged ev w).

(** A call of a helper: recorded, then its outcome *)
Definition call (ev : event) (o : outcome pyval) : M pyval :=
  bind (log ev) (fun _ => lift o).

(** A call of a helper that acts on the file system *)
Definition call_fs (ev : event)
           (f : gmap string node -> outcome pyval * gmap string node) : M pyval :=
  bind (log ev) (fun _ w =>
    let '(o, fs) := f (files w) in (o, {| calls := calls w; files := fs |})).

Definition read_files : M (gmap string node) := fun w => (Ret (files w), w).

End View.
Import View.

Declare Scope view_scope.
Delimit Scope view_scope with view.
Notation "x <- c1 ;; c2" := (bind c1 (fun x => c2))
  (at level 100, c1 at next level, right associativity) : view_scope.
Notation "c1 ;; c2" := (bind c1 (fun _ => c2))
  (at level 100, right associativity) : view_scope.

(** ** The handlers of [app2.py] *)

Section App.

Context (cfg : config) (U : upstream).

Local Open Scope view_scope.

(** [@app.errorhandler(500)] *)
Definition internal_server_error (e : exn) : response :=
  with_status (jsonify [("error", PStr (str e))]) 500.

(** [@app.errorhandler(404)] *)
Definition not_found_error (e : exn) : response :=
  with_status (jsonify [("error", PStr (str e))]) 404.

(** [@app.route('/', defaults={'path': ''})], [@app.route('/<path:path>')] *)
Definition serve (path : string) : M response :=
  fs <- read_files ;;
  if negb (String.eqb path "")
     && path_exists fs (static_folder cfg ++ "/" ++ path)
  then lift (send_from_directory fs (static_folder cfg) path)
  else lift (send_from_directory fs (static_folder cfg) "index.html").

(** [@app.route('/get_weather', methods=['POST'])]; [get_json] is what
    [request.get_json()] does on the request. *)
Definition get_weather (get_json : outcome pyval) : M response :=
  data <- lift get_json ;;
  location <- lift (Py.get data "location") ;;
  if is_None location then
    ret (jsonify [("error", PStr "No location provided.")])
  else
    location_result <-
      call (Call_get_location_from_google (GOOGLE_API_KEY cfg) (Some location))
           (get_location_from_google U (GOOGLE_API_KEY cfg) (Some location)) ;;
    if is_None location_result then
      ret (jsonify [("error",
             PStr "Unable to retrieve location from Google Geolocation API.")])
    else
      coordinates <- lift (unpack2 location_result) ;;
      let '(latitude, longitude) := coordinates in
      location_name <-
        call (Call_get_location_name latitude longitude)
             (get_location_name U latitude longitude) ;;
      place_id <-
        call (Call_get_place_id_from_coordinates (GOOGLE_API_KEY cfg) latitude longitude)
             (get_place_id_from_coordinates U (GOOGLE_API_KEY cfg) latitude longitude) ;;
      current_weather <-
        call (Call_get_current_weather latitude longitude (OPENWEATHER_API_KEY cfg))
             (get_current_weather U latitude longitude (OPENWEATHER_API_KEY cfg)) ;;
      forecast <-
        call (Call_get_five_day_forecast latitude longitude (OPENWEATHER_API_KEY cfg))
             (get_five_day_forecast U latitude longitude (OPENWEATHER_API_KEY cfg)) ;;
      photo_reference <-
        call (Call_get_photo_reference (GOOGLE_API_KEY cfg) place_id)
             (get_photo_reference U (GOOGLE_API_KEY cfg) place_id) ;;
      photo_path <-
        (if negb (is_None photo_reference) then
           photo_filename <-
             call_fs (Call_get_photo photo_reference (GOOGLE_API_KEY cfg))
                     (get_photo U photo_reference (GOOGLE_API_KEY cfg)) ;;
           ret (if negb (is_None photo_filename)
                then PStr "images/photo.jpg" else PNone)
         else ret PNone) ;;
      ret (jsonify [("current_weather", current_weather); ("forecast", forecast);
                    ("photo_path", photo_path); ("location", location_name)]).

(** [@app.route('/weather', methods=['GET'])] *)
Definition weather : M response :=
  location_result <-
    call (Call_get_location_from_google (GOOGLE_API_KEY cfg) None)
         (get_location_from_google U (GOOGLE_API_KEY cfg) None) ;;
  coordinates <- lift (unpack2 location_result) ;;
  let '(latitude, longitude) := coordinates in
  if negb (is_None latitude) && negb (is_None longitude) then
    current_weather <-
      call (Call_get_current_weather latitude longitude (OPENWEATHER_API_KEY cfg))
           (get_current_weather U latitude longitude (OPENWEATHER_API_KEY cfg)) ;;
    forecast <-
      call (Call_get_five_day_forecast latitude longitude (OPENWEATHER_API_KEY cfg))
           (get_five_day_forecast U latitude longitude (OPENWEATHER_API_KEY cfg)) ;;
    place_id <-
      call (Call_get_place_id_from_coordinates (GOOGLE_API_KEY cfg) latitude longitude)
           (get_place_id_from_coordinates U (GOOGLE_API_KEY cfg) latitude longitude) ;;
    photo_reference <-
      call (Call_get_photo_reference (GOOGLE_API_KEY cfg) place_id)
           (get_photo_reference U (GOOGLE_API_KEY cfg) place_id) ;;
    photo_path <-
      call_fs (Call_get_photo photo_reference (GOOGLE_API_KEY cfg))
              (get_photo U photo_reference (GOOGLE_API_KEY cfg)) ;;
    location_name <-
      call (Call_get_location_name latitude longitude)
           (get_location_name U latitude longitude) ;;
    log (Call_print [photo_path; location_name]) ;;
    ret (jsonify [("current_weather", current_weather); ("forecast", forecast)])
  else
    ret (jsonify [("error",
           PStr "Unable to retrieve location from Google Geolocation API.")]).

(** *** Flask's handling of a request

    [to_handler e] is the object Flask passes to the handler registered for
    500 when the exception [e] left a view unhandled: [e] itself before
    Flask 1.1, an [InternalServerError] that wraps it since. *)
Context (to_handler : exn -> exn).

Definition is_http (e : exn) : bool :=
  match e with
  | HTTPException _ _ _ => true
  | _ => false
  end.

(** An HTTP exception goes to the handler registered for its code, and is
    its own response when there is none; any other exception goes to the
    handler registered for 500. *)
Definition handle_exception (e : exn) : response :=
  match e with
  | HTTPException code name description =>
      if (code =? 404)%Z then not_found_error e
      else if (code =? 500)%Z then internal_server_error e
      else {| resp_body := Html (str e); status := code |}
  | _ => internal_server_error (to_handler e)
  end.

(** The view functions a request can be routed to *)
Inductive endpoint : Type :=
| Serve (path : string)
| GetWeather (get_json : outcome pyval)
| Weather.

Definition view (ep : endpoint) : M response :=
  match ep with
  | Serve path => serve path
  | GetWeather get_json => get_weather get_json
  | Weather => weather
  end.

(** The response to a request and the world it leaves *)
Definition handle_request (ep : endpoint) (w : world) : response * world :=
  match view ep w with
  | (Ret rv, w') => (rv, w')
  | (Raise e, w') => (handle_exception e, w')
  end.

End App.

Arguments internal_server_error e : simpl never.
Arguments not_found_error e : simpl never.

(** ** [get_photo], from its contract *)

(** Modelled from the spec: [get_photo] of [coordinates.py], which is not
    part of the sources at hand.  Section 4.4: it downloads the image bytes
    to the fixed local path [images/photo.jpg], overwriting any previous
    file, and returns the file name; it returns null if the reference is null
    or the download fails.  [download] is the outcome of the HTTP request
    for a reference and [filename] the name it returns. *)
Definition get_photo_model
           (download : pyval -> option string -> option (list byte))
           (filename : string)
           (photo_reference : pyval) (api_key : option string)
           (fs : gmap string node) : outcome pyval * gmap string node :=
  if is_None photo_reference then (Ret PNone, fs)
  else match download photo_reference api_key with
       | Some data => (Ret (PStr filename), <["images/photo.jpg" := File data]> fs)
       | None => (Ret PNone, fs)
       end.

(** ** What is read off a response *)

(** The payload of a JSON response, as the list of its members *)
Definition payload (rv : response) : option (list (string * pyval)) :=
  match resp_body rv with
  | Json (PDict entries) => Some entries
  | _ => None
  end.

(** The keys of the payload *)
Definition payload_keys (rv : response) : option (list string) :=
  (fun entries => entries.*1) <$> payload rv.

(** The member [key] of the payload *)
Definition member (key : string) (rv : response) : option pyval :=
  payload rv ≫= lookup_key key.

(** The two error payloads of the weather views *)
Definition no_location_provided : response :=
  {| resp_body := Json (PDict [("error", PStr "No location provided.")]);
     status := 200 |}.

Definition unable_to_retrieve_location : response :=
  {| resp_body :=
       Json (PDict [("error",
               PStr "Unable to retrieve location from Google Geolocation API.")]);
     status := 200 |}.

(** The call [ev] is a weather fetch, and it raises [e]. *)
Definition weather_fetch_raises (U : upstream) (ev : event) (e : exn) : Prop :=
  match ev with
  | Call_get_current_weather latitude longitude api_key =>
      get_current_weather U latitude longitude api_key = Raise e
  | Call_get_five_day_forecast latitude longitude api_key =>
      get_five_day_forecast U latitude longitude api_key = Raise e
  | _ => False
  end.

(** The call [ev], made while the files are [fs], raises [e]. *)
Definition helper_raises (U : upstream) (fs : gmap string node) (ev : event) (e : exn)
  : Prop :=
  match ev with
  | Call_get_location_from_google api_key location =>
      get_location_from_google U api_key location = Raise e
  | Call_get_location_name latitude longitude =>
      get_location_name U latitude longitude = Raise e
  | Call_get_place_id_from_coordinates api_key latitude longitude =>
      get_place_id_from_coordinates U api_key latitude longitude = Raise e
  | Call_get_current_weather latitude longitude api_key =>
      get_current_weather U latitude longitude api_key = Raise e
  | Call_get_five_day_forecast latitude longitude api_key =>
      get_five_day_forecast U latitude longitude api_key = Raise e
  | Call_get_photo_reference api_key place_id =>
      get_photo_reference U api_key place_id = Raise e
  | Call_get_photo photo_reference api_key =>
      (get_photo U photo_reference api_key fs).1 = Raise e
  | Call_print _ => False
  end.

(** The calls of [get_weather], in the order of its lines 121 to 133 *)
Definition get_weather_calls (cfg : config)
           (location latitude longitude place_id photo_reference : pyval) : list event :=
  [Call_get_location_from_google (GOOGLE_API_KEY cfg) (Some location);
   Call_get_location_name latitude longitude;
   Call_get_place_id_from_coordinates (GOOGLE_API_KEY cfg) latitude longitude;
   Call_get_current_weather latitude longitude (OPENWEATHER_API_KEY cfg);
   Call_get_five_day_forecast latitude longitude (OPENWEATHER_API_KEY cfg);
   Call_get_photo_reference (GOOGLE_API_KEY cfg) place_id;
   Call_get_photo photo_reference (GOOGLE_API_KEY cfg)].

(** The calls of [weather], in the order of its lines 159 to 167 *)
Definition weather_calls (cfg : config)
           (latitude longitude place_id photo_reference photo_path name : pyval)
  : list event :=
  [Call_get_location_from_google (GOOGLE_API_KEY cfg) None;
   Call_get_current_weather latitude longitude (OPENWEATHER_API_KEY cfg);
   Call_get_five_day_forecast latitude longitude (OPENWEATHER_API_KEY cfg);
   Call_get_place_id_from_coordinates (GOOGLE_API_KEY cfg) latitude longitude;
   Call_get_photo_reference (GOOGLE_API_KEY cfg) place_id;
   Call_get_photo photo_reference (GOOGLE_API_KEY cfg);
   Call_get_location_name latitude longitude;
   Call_print [photo_path; name]].

(** [ev] is a call of [get_photo]. *)
Definition is_get_photo (ev : event) : bool :=
  match ev with
  | Call_get_photo _ _ => true
  | _ => false
  end.

(** ** Sample requests and environments *)

Module Sample.

Definition cfg : config :=
  {| GOOGLE_API_KEY := Some "google-key";
     OPENWEATHER_API_KEY := Some "openweather-key";
     static_folder := "static" |}.

Definition lat : pyval := PFloat (488566 # 10000).
Definition lon : pyval := PFloat (23522 # 10000).
Definition sunny : pyval := PDict [("temp", PFloat (215 # 10)); ("main", PStr "Clear")].
Definition five_days : pyval := PList [sunny; sunny; sunny; sunny; sunny].
Definition jpeg : list byte := [Byte.xff; Byte.xd8; Byte.xff; Byte.xd9].

(** Every helper succeeds; the place has a photo. *)
Definition all_succeed : upstream :=
  {| get_location_from_google := fun _ _ => Ret (PTuple [lat; lon]);
     get_location_name := fun _ _ => Ret (PStr "Paris, France");
     get_place_id_from_coordinates := fun _ _ _ => Ret (PStr "place-1");
     get_current_weather := fun _ _ _ => Ret sunny;
     get_five_day_forecast := fun _ _ _ => Ret five_days;
     get_photo_reference := fun _ _ => Ret (PStr "photo-ref-1");
     get_photo := get_photo_model (fun _ _ => Some jpeg) "photo.jpg" |}.

Definition with_location (f : option string -> option pyval -> outcome pyval)
           (U : upstream) : upstream :=
  {| get_location_from_google := f;
     get_location_name := get_location_name U;
     get_place_id_from_coordinates := get_place_id_from_coordinates U;
     get_current_weather := get_current_weather U;
     get_five_day_forecast := get_five_day_forecast U;
     get_photo_reference := get_photo_reference U;
     get_photo := get_photo U |}.

Definition with_photo_reference (f : option string -> pyval -> outcome pyval)
           (U : upstream) : upstream :=
  {| get_location_from_google := get_location_from_google U;
     get_location_name := get_location_name U;
     get_place_id_from_coordinates := get_place_id_from_coordinates U;
     get_current_weather := get_current_weather U;
     get_five_day_forecast := get_five_day_forecast U;
     get_photo_reference := f;
     get_photo := get_photo U |}.

Definition with_forecast (f : pyval -> pyval -> option string -> outcome pyval)
           (U : upstream) : upstream :=
  {| get_location_from_google := get_location_from_google U;
     get_location_name := get_location_name U;
     get_place_id_from_coordinates := get_place_id_from_coordinates U;
     get_current_weather := get_current_weather U;
     get_five_day_forecast := f;
     get_photo_reference := get_photo_reference U;
     get_photo := get_photo U |}.

(** The resolver finds nothing. *)
Definition no_location : upstream := with_location (fun _ _ => Ret PNone) all_succeed.

(** The place has no photo. *)
Definition no_photo : upstream := with_photo_reference (fun _ _ => Ret PNone) all_succeed.

(** The forecast request fails. *)
Definition timed_out : exn := OtherError "ConnectTimeout" "connection to api.openweathermap.org timed out".
Definition forecast_fails : upstream := with_forecast (fun _ _ _ => Raise timed_out) all_succeed.

(** The static folder holds the entry document, a script and a folder of
    images; an older photo is on disk. *)
Definition disk : gmap string node :=
  {[ "static/index.html" := File [Byte.x3c; Byte.x21];
     "static/main.js" := File [Byte.x2f; Byte.x2f];
     "static/images" := Dir;
     "images/photo.jpg" := File [Byte.x00] ]}.

Definition w0 : world := {| calls := []; files := disk |}.

Definition paris : outcome pyval := Ret (PDict [("location", PStr "Paris")]).

Definition with_photo
           (f : pyval -> option string -> gmap string node
                -> outcome pyval * gmap string node)
           (U : upstream) : upstream :=
  {| get_location_from_google := get_location_from_google U;
     get_location_name := get_location_name U;
     get_place_id_from_coordinates := get_place_id_from_coordinates U;
     get_current_weather := get_current_weather U;
     get_five_day_forecast := get_five_day_forecast U;
     get_photo_reference := get_photo_reference U;
     get_photo := f |}.

Definition with_name (f : pyval -> pyval -> outcome pyval) (U : upstream) : upstream :=
  {| get_location_from_google := get_location_from_google U;
     get_location_name := f;
     get_place_id_from_coordinates := get_place_id_from_coordinates U;
     get_current_weather := get_current_weather U;
     get_five_day_forecast := get_five_day_forecast U;
     get_photo_reference := get_photo_reference U;
     get_photo := get_photo U |}.

(** The forecast is answered with werkzeug's [NotFound]. *)
Definition forecast_not_found : upstream :=
  with_forecast (fun _ _ _ => Raise NotFound) all_succeed.

(** The photo cannot be downloaded. *)
Definition download_fails : upstream :=
  with_photo (get_photo_model (fun _ _ => None) "photo.jpg") all_succeed.

(** The reverse geocoding fails. *)
Definition name_fails : upstream := with_name (fun _ _ => Raise timed_out) all_succeed.

(** The resolver returns three numbers. *)
Definition three_coordinates : upstream :=
  with_location (fun _ _ => Ret (PTuple [lat; lon; PInt 35])) all_succeed.

(** The resolver returns a pair of [None]. *)
Definition pair_of_None : upstream :=
  with_location (fun _ _ => Ret (PTuple [PNone; PNone])) all_succeed.

(** A static folder without its entry document *)
Definition disk_without_index : gmap string node :=
  {[ "static/main.js" := File [Byte.x2f; Byte.x2f] ]}.

End Sample.

(** ** Running the monad *)

Lemma bind_ret {A B} (a : A) (k : A -> M B) w : bind (ret a) k w = k a w.
Proof. reflexivity. Qed.

Lemma bind_lift_Ret {A B} (a : A) (k : A -> M B) w : bind (lift (Ret a)) k w = k a w.
Proof. reflexivity. Qed.

Lemma bind_lift_Raise {A B} e (k : A -> M B) w :
  bind (lift (Raise e)) k w = (Raise e, w).
Proof. reflexivity. Qed.

Lemma bind_call_Ret {B} ev v (k : pyval -> M B) w :
  bind (call ev (Ret v)) k w = k v (logged ev w).
Proof. reflexivity. Qed.

Lemma bind_call_Raise {B} ev e (k : pyval -> M B) w :
  bind (call ev (Raise e)) k w = (Raise e, logged ev w).
Proof. reflexivity. Qed.

Lemma logged_calls ev w : calls (logged ev w) = (calls w ++ [ev])%list.
Proof. reflexivity. Qed.

Lemma logged_files ev w : files (logged ev w) = files w.
Proof. reflexivity. Qed.

(** ** POST /get_weather *)

(** C3: when the body of POST /get_weather is a JSON object without the key
    [location], the view returns, whatever the helpers would do, the payload
    [{"error": "No location provided."}] with status 200, and the world is
    the one it started from: no helper is called, no file written. *)
Theorem get_weather_without_location cfg U to_handler (body : list (string * pyval)) w :
  lookup_key "location" body = None ->
  view cfg U (GetWeather (Ret (PDict body))) w = (Ret no_location_provided, w)
  /\ handle_request cfg U to_handler (GetWeather (Ret (PDict body))) w
     = (no_location_provided, w)
  /\ payload no_location_provided = Some [("error", PStr "No location provided.")]
  /\ status no_location_provided = 200.
Proof.
  intros Hkey.
  assert (Hview : view cfg U (GetWeather (Ret (PDict body))) w
                  = (Ret no_location_provided, w)).
  { unfold view, get_weather. rewrite bind_lift_Ret. unfold Py.get.
    rewrite Hkey. reflexivity. }
  split; [exact Hview|]. split; [|split; reflexivity].
  unfold handle_request. rewrite Hview. reflexivity.
Qed.

Lemma get_weather_without_location_witness :
  lookup_key "location" [] = None
  /\ view Sample.cfg Sample.all_succeed (GetWeather (Ret (PDict []))) Sample.w0
     = (Ret no_location_provided, Sample.w0).
Proof.
  split; [reflexivity|].
  apply (get_weather_without_location Sample.cfg Sample.all_succeed (fun e => e) []
           Sample.w0).
  reflexivity.
Defined.

(** C5: when POST /get_weather carries a location and
    [get_location_from_google] returns [None] for it, the view returns the
    payload [{"error": "Unable to retrieve location from Google Geolocation
    API."}]; the call of the resolver is the only call of the request, so
    none of the lookups of name, place id, weather, forecast and photo is
    made. *)
Theorem get_weather_location_unresolved cfg U (body : list (string * pyval)) location w :
  lookup_key "location" body = Some location ->
  is_None location = false ->
  get_location_from_google U (GOOGLE_API_KEY cfg) (Some location) = Ret PNone ->
  view cfg U (GetWeather (Ret (PDict body))) w
  = (Ret unable_to_retrieve_location,
     {| calls := calls w
                 ++ [Call_get_location_from_google (GOOGLE_API_KEY cfg) (Some location)];
        files := files w |}).
Proof.
  intros Hkey Hloc Hres.
  unfold view, get_weather. rewrite bind_lift_Ret. unfold Py.get.
  rewrite Hkey, bind_lift_Ret, Hloc, Hres, bind_call_Ret. reflexivity.
Qed.

Lemma get_weather_location_unresolved_witness :
  view Sample.cfg Sample.no_location (GetWeather Sample.paris) Sample.w0
  = (Ret unable_to_retrieve_location,
     {| calls := [Call_get_location_from_google (Some "google-key") (Some (PStr "Paris"))];
        files := Sample.disk |}).
Proof.
  apply (get_weather_location_unresolved Sample.cfg Sample.no_location
           [("location", PStr "Paris")] (PStr "Paris") Sample.w0);
    reflexivity.
Defined.

(** C2: when POST /get_weather carries a location string and every helper
    succeeds (the resolver returns a pair of coordinates, the namer a string,
    the weather fetches a value other than [None] and a list, and, where a
    photo reference was found, [get_photo] a file name), the view returns
    with status 200 the payload made of that [current_weather], that
    [forecast], that [location], and a [photo_path] that is
    ["images/photo.jpg"] when the photo reference is not [None], else
    [None]. *)
Theorem get_weather_all_succeed cfg U (body : list (string * pyval))
        location latitude longitude name place_id current forecast photo_reference w :
  lookup_key "location" body = Some (PStr location) ->
  get_location_from_google U (GOOGLE_API_KEY cfg) (Some (PStr location))
  = Ret (PTuple [latitude; longitude]) ->
  get_location_name U latitude longitude = Ret (PStr name) ->
  get_place_id_from_coordinates U (GOOGLE_API_KEY cfg) latitude longitude = Ret place_id ->
  get_current_weather U latitude longitude (OPENWEATHER_API_KEY cfg) = Ret current ->
  is_None current = false ->
  get_five_day_forecast U latitude longitude (OPENWEATHER_API_KEY cfg)
  = Ret (PList forecast) ->
  get_photo_reference U (GOOGLE_API_KEY cfg) place_id = Ret photo_reference ->
  (is_None photo_reference = false ->
   exists filename,
     (get_photo U photo_reference (GOOGLE_API_KEY cfg) (files w)).1 = Ret filename
     /\ is_None filename = false) ->
  (view cfg U (GetWeather (Ret (PDict body))) w).1
  = Ret {| resp_body :=
             Json (PDict [("current_weather", current);
                          ("forecast", PList forecast);
                          ("photo_path", if is_None photo_reference then PNone
                                         else PStr "images/photo.jpg");
                          ("location", PStr name)]);
           status := 200 |}.
Proof.
  intros Hkey Hres Hname Hplace Hcur Hsome Hfc Href Hphoto.
  unfold view, get_weather, Py.get. rewrite bind_lift_Ret, Hkey, bind_lift_Ret.
  cbn [is_None]. rewrite Hres, bind_call_Ret. cbn [is_None unpack2 iterate].
  rewrite bind_lift_Ret, Hname, bind_call_Ret, Hplace, bind_call_Ret.
  rewrite Hcur, bind_call_Ret, Hfc, bind_call_Ret, Href, bind_call_Ret.
  destruct (is_None photo_reference) eqn:Hnone; cbn [negb].
  - reflexivity.
  - destruct Hphoto as (filename & Hget & Hfile); [reflexivity|].
    unfold bind at 1 2, call_fs, bind, log, ret. cbn [files logged].
    destruct (get_photo U photo_reference (GOOGLE_API_KEY cfg) (files w))
      as [o fs] eqn:Hrun.
    cbn [fst] in Hget. subst o. rewrite Hfile. reflexivity.
Qed.

Lemma get_weather_all_succeed_witness :
  (view Sample.cfg Sample.all_succeed (GetWeather Sample.paris) Sample.w0).1
  = Ret {| resp_body :=
             Json (PDict [("current_weather", Sample.sunny);
                          ("forecast", Sample.five_days);
                          ("photo_path", PStr "images/photo.jpg");
                          ("location", PStr "Paris, France")]);
           status := 200 |}.
Proof.
  apply (get_weather_all_succeed Sample.cfg Sample.all_succeed
           [("location", PStr "Paris")] "Paris" Sample.lat Sample.lon
           "Paris, France" (PStr "place-1") Sample.sunny
           [Sample.sunny; Sample.sunny; Sample.sunny; Sample.sunny; Sample.sunny]
           (PStr "photo-ref-1") Sample.w0);
    try reflexivity.
  intros _. exists (PStr "photo.jpg"). split; reflexivity.
Defined.

(** ** Following a run *)

Lemma new_calls_nil (l0 l : list event) : l0 = (l0 ++ l)%list -> l = [].
Proof.
  intros H. rewrite <- (app_nil_r l0) in H at 1.
  apply app_inv_head in H. congruence.
Qed.

(** Case analysis on every outcome that a run consults, innermost first. *)
Ltac explore H :=
  repeat (cbn in H;
          match type of H with
          | context [match ?x with _ => _ end] =>
              match x with
              | context [match _ with _ => _ end] => fail 1
              | _ => destruct x eqn:?
              end
          end).

(** Two outcomes of one call are the same outcome. *)
Ltac same_outcome :=
  repeat match goal with
         | H1 : ?c = Ret ?a, H2 : ?c = Ret ?b |- _ =>
             assert (b = a) by congruence; clear H2; simplify_eq/=
         | H1 : ?c = Raise ?a, H2 : ?c = Raise ?b |- _ =>
             assert (b = a) by congruence; clear H2; simplify_eq/=
         | H1 : ?c = Ret _, H2 : ?c = Raise _ |- _ => congruence
         | H1 : ?c = (Ret _, _), H2 : ?c = (Raise _, _) |- _ => congruence
         end.

(** From [calls w' = calls w ++ l], the list [l] itself. *)
Ltac new_calls H :=
  cbn in H; rewrite <- ?app_assoc in H; cbn in H;
  first [ apply app_inv_head in H | apply new_calls_nil in H ].

(** C4: when a POST /get_weather request reaches the photo step, that is,
    when its calls include the one of [get_photo_reference], and that call
    returns [None], the view raises nothing and returns the payload with
    [photo_path] null next to the [current_weather], the [forecast] and the
    [location] that the helpers returned; [get_photo] is not called and no
    file is written. *)
Theorem get_weather_without_photo cfg U get_json w o w' l key place_id :
  view cfg U (GetWeather get_json) w = (o, w') ->
  calls w' = (calls w ++ l)%list ->
  In (Call_get_photo_reference key place_id) l ->
  get_photo_reference U key place_id = Ret PNone ->
  exists location latitude longitude name current forecast,
    o = Ret (jsonify [("current_weather", current); ("forecast", forecast);
                      ("photo_path", PNone); ("location", name)])
    /\ get_location_name U latitude longitude = Ret name
    /\ get_current_weather U latitude longitude (OPENWEATHER_API_KEY cfg) = Ret current
    /\ get_five_day_forecast U latitude longitude (OPENWEATHER_API_KEY cfg) = Ret forecast
    /\ l = [Call_get_location_from_google (GOOGLE_API_KEY cfg) (Some location);
            Call_get_location_name latitude longitude;
            Call_get_place_id_from_coordinates (GOOGLE_API_KEY cfg) latitude longitude;
            Call_get_current_weather latitude longitude (OPENWEATHER_API_KEY cfg);
            Call_get_five_day_forecast latitude longitude (OPENWEATHER_API_KEY cfg);
            Call_get_photo_reference (GOOGLE_API_KEY cfg) place_id]
    /\ files w' = files w.
Proof.
  intros Hrun Hcalls Hin Href.
  unfold view, get_weather in Hrun.
  unfold bind, call, call_fs, lift, log, ret in Hrun.
  explore Hrun.
  all: inversion Hrun; subst; clear Hrun.
  all: new_calls Hcalls; subst l; cbn in Hin.
  all: destruct_or?; simplify_eq/=.
  all: same_outcome.
  eexists _, _, _, _, _, _. repeat split; eauto.
Qed.

Lemma get_weather_without_photo_witness :
  exists location latitude longitude name current forecast,
    (view Sample.cfg Sample.no_photo (GetWeather Sample.paris) Sample.w0).1
    = Ret (jsonify [("current_weather", current); ("forecast", forecast);
                    ("photo_path", PNone); ("location", name)])
    /\ get_location_name Sample.no_photo latitude longitude = Ret name
    /\ get_current_weather Sample.no_photo latitude longitude (Some "openweather-key")
       = Ret current
    /\ get_five_day_forecast Sample.no_photo latitude longitude (Some "openweather-key")
       = Ret forecast
    /\ calls (view Sample.cfg Sample.no_photo (GetWeather Sample.paris) Sample.w0).2
       = [Call_get_location_from_google (Some "google-key") (Some location);
          Call_get_location_name latitude longitude;
          Call_get_place_id_from_coordinates (Some "google-key") latitude longitude;
          Call_get_current_weather latitude longitude (Some "openweather-key");
          Call_get_five_day_forecast latitude longitude (Some "openweather-key");
          Call_get_photo_reference (Some "google-key") (PStr "place-1")]
    /\ files (view Sample.cfg Sample.no_photo (GetWeather Sample.paris) Sample.w0).2
       = Sample.disk.
Proof.
  apply (get_weather_without_photo Sample.cfg Sample.no_photo Sample.paris Sample.w0
           (view Sample.cfg Sample.no_photo (GetWeather Sample.paris) Sample.w0).1
           (view Sample.cfg Sample.no_photo (GetWeather Sample.paris) Sample.w0).2
           (calls (view Sample.cfg Sample.no_photo (GetWeather Sample.paris) Sample.w0).2)
           (Some "google-key") (PStr "place-1")).
  - reflexivity.
  - reflexivity.
  - do 5 right. left. reflexivity.
  - reflexivity.
Defined.

(** ** GET /weather *)

(** C6: a GET /weather request that succeeds (the view returns a payload
    without the member [error]) answers with exactly the two members
    [current_weather] and [forecast], in a response of status 200;
    [photo_path] and [location] are not in it, although the request made the
    calls of the whole pipeline: resolver, both weather fetches, place id,
    photo reference, photo and location name. *)
Theorem weather_payload_keys cfg U w rv w' l :
  view cfg U Weather w = (Ret rv, w') ->
  member "error" rv = None ->
  calls w' = (calls w ++ l)%list ->
  exists latitude longitude current forecast place_id photo_reference photo_path name,
    rv = {| resp_body := Json (PDict [("current_weather", current);
                                      ("forecast", forecast)]);
            status := 200 |}
    /\ payload_keys rv = Some ["current_weather"; "forecast"]
    /\ member "photo_path" rv = None
    /\ member "location" rv = None
    /\ l = [Call_get_location_from_google (GOOGLE_API_KEY cfg) None;
            Call_get_current_weather latitude longitude (OPENWEATHER_API_KEY cfg);
            Call_get_five_day_forecast latitude longitude (OPENWEATHER_API_KEY cfg);
            Call_get_place_id_from_coordinates (GOOGLE_API_KEY cfg) latitude longitude;
            Call_get_photo_reference (GOOGLE_API_KEY cfg) place_id;
            Call_get_photo photo_reference (GOOGLE_API_KEY cfg);
            Call_get_location_name latitude longitude;
            Call_print [photo_path; name]].
Proof.
  intros Hrun Herr Hcalls.
  unfold view, weather in Hrun.
  unfold bind, call, call_fs, lift, log, ret in Hrun.
  explore Hrun.
  all: inversion Hrun; subst; clear Hrun.
  all: try discriminate Herr.
  new_calls Hcalls; subst l.
  eexists _, _, _, _, _, _, _, _. repeat split; eauto.
Qed.

Lemma weather_payload_keys_witness :
  exists rv,
    (view Sample.cfg Sample.all_succeed Weather Sample.w0).1 = Ret rv
    /\ payload_keys rv = Some ["current_weather"; "forecast"]
    /\ member "photo_path" rv = None
    /\ member "location" rv = None.
Proof.
  pose (run := view Sample.cfg Sample.all_succeed Weather Sample.w0).
  exists (jsonify [("current_weather", Sample.sunny); ("forecast", Sample.five_days)]).
  split; [reflexivity|].
  destruct (weather_payload_keys Sample.cfg Sample.all_succeed Sample.w0
              (jsonify [("current_weather", Sample.sunny);
                        ("forecast", Sample.five_days)])
              run.2 (calls run.2))
    as (? & ? & ? & ? & ? & ? & ? & ? & _ & Hkeys & Hphoto & Hloc & _).
  - reflexivity.
  - reflexivity.
  - reflexivity.
  - auto.
Defined.

(** C10: a GET /weather request that succeeds has called
    [get_place_id_from_coordinates], [get_photo_reference], [get_photo] and
    [get_location_name], each of which returned, and leaves the file system
    as [get_photo] left it, while its payload holds only what
    [get_current_weather] and [get_five_day_forecast] returned.  Where
    [get_photo] follows its contract and the download succeeds,
    [images/photo.jpg] is overwritten with the downloaded bytes. *)
Theorem weather_side_effects cfg U w rv w' l :
  view cfg U Weather w = (Ret rv, w') ->
  member "error" rv = None ->
  calls w' = (calls w ++ l)%list ->
  exists latitude longitude current forecast place_id photo_reference photo_path name,
    (In (Call_get_place_id_from_coordinates (GOOGLE_API_KEY cfg) latitude longitude) l
     /\ get_place_id_from_coordinates U (GOOGLE_API_KEY cfg) latitude longitude
        = Ret place_id)
    /\ (In (Call_get_photo_reference (GOOGLE_API_KEY cfg) place_id) l
        /\ get_photo_reference U (GOOGLE_API_KEY cfg) place_id = Ret photo_reference)
    /\ (In (Call_get_photo photo_reference (GOOGLE_API_KEY cfg)) l
        /\ get_photo U photo_reference (GOOGLE_API_KEY cfg) (files w)
           = (Ret photo_path, files w'))
    /\ (In (Call_get_location_name latitude longitude) l
        /\ get_location_name U latitude longitude = Ret name)
    /\ payload rv = Some [("current_weather", current); ("forecast", forecast)]
    /\ get_current_weather U latitude longitude (OPENWEATHER_API_KEY cfg) = Ret current
    /\ get_five_day_forecast U latitude longitude (OPENWEATHER_API_KEY cfg) = Ret forecast
    /\ (forall download filename data,
          (forall r k fs, get_photo U r k fs = get_photo_model download filename r k fs) ->
          is_None photo_reference = false ->
          download photo_reference (GOOGLE_API_KEY cfg) = Some data ->
          files w' = <["images/photo.jpg" := File data]> (files w)).
Proof.
  intros Hrun Herr Hcalls.
  unfold view, weather in Hrun.
  unfold bind, call, call_fs, lift, log, ret in Hrun.
  explore Hrun.
  all: inversion Hrun; subst; clear Hrun.
  all: try discriminate Herr.
  new_calls Hcalls; subst l.
  match goal with
  | H : get_photo _ ?r _ _ = (Ret ?v, ?fs) |- _ =>
      rename H into Hphoto, r into photo_reference, v into photo_path
  end.
  eexists _, _, _, _, _, photo_reference, photo_path, _.
  repeat split; eauto; try (cbn; tauto).
  intros download filename data Hmodel Href Hdata.
  rewrite Hmodel in Hphoto. unfold get_photo_model in Hphoto.
  rewrite Href, Hdata in Hphoto. injection Hphoto as _ <-. reflexivity.
Qed.

Lemma weather_side_effects_witness :
  Sample.disk !! "images/photo.jpg" = Some (File [Byte.x00])
  /\ files (view Sample.cfg Sample.all_succeed Weather Sample.w0).2
     = <["images/photo.jpg" := File Sample.jpeg]> Sample.disk
  /\ exists rv current forecast,
      (view Sample.cfg Sample.all_succeed Weather Sample.w0).1 = Ret rv
      /\ payload rv = Some [("current_weather", current); ("forecast", forecast)].
Proof.
  pose (run := view Sample.cfg Sample.all_succeed Weather Sample.w0).
  destruct (weather_side_effects Sample.cfg Sample.all_succeed Sample.w0
              (jsonify [("current_weather", Sample.sunny);
                        ("forecast", Sample.five_days)])
              run.2 (calls run.2))
    as (latitude & longitude & current & forecast & place_id & photo_reference
        & photo_path & name & _ & [_ Href] & _ & _ & Hpayload & _ & _ & Hfile).
  - reflexivity.
  - reflexivity.
  - reflexivity.
  - injection Href as <-.
    split; [reflexivity|]. split.
    + apply (Hfile (fun _ _ => Some Sample.jpeg) "photo.jpg" Sample.jpeg);
        reflexivity.
    + eexists _, current, forecast. split; [reflexivity | exact Hpayload].
Defined.

(** [weather] unpacks what the resolver returned before it looks at it: a
    result that is not iterable raises there. *)
Lemma weather_unpacks_first cfg U w location_result :
  get_location_from_google U (GOOGLE_API_KEY cfg) None = Ret location_result ->
  iterate location_result = None ->
  view cfg U Weather w
  = (Raise (TypeError ("cannot unpack non-iterable " ++ type_name location_result
                         ++ " object")),
     logged (Call_get_location_from_google (GOOGLE_API_KEY cfg) None) w).
Proof.
  intros Hres Hiter. unfold view, weather.
  rewrite Hres, bind_call_Ret. unfold unpack2. rewrite Hiter. reflexivity.
Qed.

(** The error branch of [weather] is the one of a pair with a [None] in it. *)
Lemma weather_pair_with_None cfg U w latitude longitude :
  get_location_from_google U (GOOGLE_API_KEY cfg) None
  = Ret (PTuple [latitude; longitude]) ->
  is_None latitude || is_None longitude = true ->
  view cfg U Weather w
  = (Ret unable_to_retrieve_location,
     logged (Call_get_location_from_google (GOOGLE_API_KEY cfg) None) w).
Proof.
  intros Hres Hnone. unfold view, weather.
  rewrite Hres, bind_call_Ret. cbn [unpack2 iterate]. rewrite bind_lift_Ret.
  destruct (is_None latitude), (is_None longitude); try discriminate; reflexivity.
Qed.

(** C1, on the request where it fails: [get_location_from_google] returns
    [None] to GET /weather.  The tuple assignment raises [TypeError] before
    the test of the coordinates is reached, and the request is answered by
    the handler of 500 with the string of the error Flask hands to it, not
    with the payload
    [{"error": "Unable to retrieve location from Google Geolocation API."}]
    that the last line of the view would return. *)
Theorem weather_location_None to_handler :
  view Sample.cfg Sample.no_location Weather Sample.w0
  = (Raise (TypeError "cannot unpack non-iterable NoneType object"),
     {| calls := [Call_get_location_from_google (Some "google-key") None];
        files := Sample.disk |})
  /\ (handle_request Sample.cfg Sample.no_location to_handler Weather Sample.w0).1
     = {| resp_body :=
            Json (PDict [("error",
                    PStr (str (to_handler
                                 (TypeError "cannot unpack non-iterable NoneType object"))))]);
          status := 500 |}
  /\ (handle_request Sample.cfg Sample.no_location to_handler Weather Sample.w0).1
     <> unable_to_retrieve_location.
Proof.
  assert (Hview : view Sample.cfg Sample.no_location Weather Sample.w0
                  = (Raise (TypeError "cannot unpack non-iterable NoneType object"),
                     {| calls := [Call_get_location_from_google (Some "google-key") None];
                        files := Sample.disk |})).
  { apply (weather_unpacks_first Sample.cfg Sample.no_location Sample.w0 PNone);
      reflexivity. }
  split; [exact Hview|].
  unfold handle_request. rewrite Hview. split; [reflexivity | discriminate].
Qed.

(** ** Paths *)


Lemma split_path_no_slash p : Forall no_slash (split_path p).
Proof.
  induction p as [|c rest IH]; cbn.
  - constructor; [|constructor]. intros [].
  - destruct (Ascii.eqb_spec c "/") as [-> | Hc].
    + constructor; [intros [] | exact IH].
    + destruct (split_path rest) as [|name names].
      * constructor; [|constructor]. intros [H | []]. congruence.
      * inversion IH as [|? ? Hname Hnames]; subst.
        constructor; [|exact Hnames]. intros [H | H]; [congruence | exact (Hname H)].
Qed.

Lemma split_path_app_no_slash name rest :
  no_slash name ->
  split_path (name ++ String "/" rest) = name :: split_path rest.
Proof.
  induction name as [|c name IH]; intros Hname; simpl.
  - reflexivity.
  - destruct (Ascii.eqb_spec c "/") as [-> | Hc].
    + exfalso. apply Hname. left. reflexivity.
    + rewrite IH; [reflexivity|]. intros H. apply Hname. right. exact H.
Qed.

Lemma split_path_single name : no_slash name -> split_path name = [name].
Proof.
  induction name as [|c name IH]; intros Hname; simpl.
  - reflexivity.
  - destruct (Ascii.eqb_spec c "/") as [-> | Hc].
    + exfalso. apply Hname. left. reflexivity.
    + rewrite IH; [reflexivity|]. intros H. apply Hname. right. exact H.
Qed.

(** [split_path] undoes [join_path] on names without a slash. *)
Lemma split_join_path names :
  names <> [] -> Forall no_slash names -> split_path (join_path names) = names.
Proof.
  induction names as [|name names IH]; intros Hne Hall; [congruence|].
  inversion Hall as [|? ? Hname Hnames]; subst.
  destruct names as [|name' names].
  - cbn. apply split_path_single. exact Hname.
  - change (join_path (name :: name' :: names))
      with (name ++ String "/" (join_path (name' :: names))).
    rewrite split_path_app_no_slash by exact Hname.
    rewrite IH; [reflexivity | discriminate | exact Hnames].
Qed.


Lemma last_app_proper (k : nat) (names : list string) :
  Forall proper names ->
  last ((replicate k ".." ++ names)%list) = Some ".." ->
  names = [].
Proof.
  intros Hall Hlast.
  destruct names as [|name names] using rev_ind; [reflexivity|].
  rewrite app_assoc, last_snoc in Hlast. injection Hlast as ->.
  apply Forall_app in Hall as [_ Hname]. inversion Hname as [|? ? (_ & _ & H & _) _].
  congruence.
Qed.

Lemma replicate_snoc_dotdot (k : nat) :
  (replicate k ".." ++ [".."])%list = replicate (S k) "..".
Proof. induction k as [|k IH]; cbn; [reflexivity | rewrite IH; reflexivity]. Qed.

(** The loop of [normpath] on a relative path keeps its components in the
    shape of some [".."] followed by proper names. *)
Lemma normpath_step_shape k names comp :
  Forall proper names ->
  no_slash comp ->
  exists k' names',
    normpath_step 0 ((replicate k ".." ++ names)%list) comp = (replicate k' ".." ++ names')%list
    /\ Forall proper names'.
Proof.
  intros Hall Hcomp. unfold normpath_step.
  destruct (String.eqb_spec comp "") as [-> | Hempty]; cbn [orb]; [eauto|].
  destruct (String.eqb_spec comp ".") as [-> | Hdot]; cbn [orb]; [eauto|].
  destruct (String.eqb_spec comp "..") as [-> | Hup]; cbn [negb orb].
  - cbn [Nat.eqb andb].
    destruct (bool_decide ((replicate k ".." ++ names)%list = [])) eqn:Hnil; cbn [orb].
    + apply bool_decide_eq_true_1 in Hnil. rewrite Hnil.
      exists 1%nat, []. split; [reflexivity | constructor].
    + destruct (bool_decide (last ((replicate k ".." ++ names)%list) = Some "..")) eqn:Hlast.
      * apply bool_decide_eq_true_1 in Hlast.
        rewrite (last_app_proper k names Hall Hlast), app_nil_r.
        exists (S k), []. rewrite app_nil_r. split; [apply replicate_snoc_dotdot|constructor].
      * apply bool_decide_eq_false_1 in Hnil, Hlast.
        destruct names as [|name names] using rev_ind.
        -- exfalso. rewrite app_nil_r in Hnil, Hlast.
           destruct k as [|k]; [apply Hnil; reflexivity|].
           apply Hlast. rewrite <- replicate_snoc_dotdot. apply last_snoc.
        -- rewrite app_assoc, removelast_last.
           apply Forall_app in Hall as [Hall _]. eauto.
  - exists k, (names ++ [comp])%list. rewrite app_assoc. split; [reflexivity|].
    apply Forall_app. split; [exact Hall|]. constructor; [|constructor].
    repeat split; assumption.
Qed.

Lemma normpath_loop_shape comps k names :
  Forall proper names ->
  Forall no_slash comps ->
  exists k' names',
    fold_left (normpath_step 0) comps ((replicate k ".." ++ names)%list)
    = (replicate k' ".." ++ names')%list
    /\ Forall proper names'.
Proof.
  revert k names. induction comps as [|comp comps IH]; intros k names Hall Hcomps.
  - cbn. eauto.
  - inversion Hcomps as [|? ? Hcomp Hrest]; subst. cbn [fold_left].
    destruct (normpath_step_shape k names comp Hall Hcomp) as (k' & names' & -> & Hall').
    apply IH; assumption.
Qed.

Lemma prefix_empty (s : string) : String.prefix "" s = true.
Proof. destruct s; reflexivity. Qed.

Lemma join_path_dotdot (rest : list string) :
  join_path (".." :: rest) = ".." \/ String.prefix "../" (join_path (".." :: rest)) = true.
Proof.
  destruct rest as [|name rest]; [left; reflexivity|].
  right. unfold join_path. simpl.
  destruct (Ascii.eqb_spec "." "."); [|congruence].
  destruct (Ascii.eqb_spec "/" "/"); [|congruence].
  apply prefix_empty.
Qed.

Lemma proper_no_dotdot names : Forall proper names -> ~ In ".." names.
Proof.
  intros Hall Hin. rewrite Forall_forall in Hall.
  destruct (Hall ".." ltac:(apply list_elem_of_In; exact Hin)) as (_ & _ & H & _).
  congruence.
Qed.

(** What [normpath] returns has [".."] only in front: a result that is not
    [".."] and starts with neither ["/"] nor ["../"] has no component
    [".."]. *)
Lemma normpath_no_dotdot path :
  String.prefix "/" (normpath path) = false ->
  normpath path <> ".." ->
  String.prefix "../" (normpath path) = false ->
  ~ In ".." (split_path (normpath path)).
Proof.
  unfold normpath.
  destruct (String.eqb path ""); [intros _ _ _ [H | []]; discriminate|].
  destruct (String.prefix "/" path).
  - intros Habs. exfalso.
    destruct (String.prefix "//" path && negb (String.prefix "///" path));
      cbn [replicate] in Habs;
      remember (join_path _) as joined eqn:Hjoined in Habs; clear Hjoined;
      destruct joined; cbv in Habs; discriminate Habs.
  - assert (Hnil : forall s, String.concat "" (replicate 0%nat "/") ++ s = s)
      by reflexivity.
    rewrite !Hnil. clear Hnil.
    destruct (normpath_loop_shape (split_path path) 0 [] (@List.Forall_nil _ proper)
                (split_path_no_slash path)) as (k & names & Hloop & Hall).
    cbn [replicate app] in Hloop. rewrite Hloop.
    destruct k as [|k].
    + cbn [replicate app]. intros _ _ _.
      destruct names as [|name names].
      * cbn. intros [H | []]. discriminate.
      * assert (Hne : join_path (name :: names) <> "").
        { inversion Hall as [|? ? (Hname & _) _]; subst.
          destruct name; [congruence|]. destruct names; discriminate. }
        apply String.eqb_neq in Hne. rewrite Hne.
        rewrite split_join_path; [apply proper_no_dotdot; exact Hall | discriminate |].
        eapply Forall_impl; [exact Hall|]. intros ? (_ & _ & _ & H). exact H.
    + cbn [replicate app].
      destruct (join_path_dotdot (replicate k ".." ++ names)%list) as [Heq | Hpre].
      * rewrite Heq. cbn. intros _ H. congruence.
      * intros _ _.
        destruct (String.eqb_spec (join_path (".." :: (replicate k ".." ++ names)%list)) "")
          as [Hempty | _]; [rewrite Hempty in Hpre; discriminate|].
        rewrite Hpre. discriminate.
Qed.

Lemma safe_join_inside directory filename full :
  safe_join directory filename = Some full ->
  exists name,
    full = posix_join (if String.eqb directory "" then "." else directory) name
    /\ String.prefix "/" name = false
    /\ ~ In ".." (split_path name).
Proof.
  unfold safe_join.
  destruct (String.eqb_spec filename "") as [-> | Hname].
  - cbn. intros [= <-]. exists "". split; [reflexivity|]. split; [reflexivity|].
    intros [H | []]. discriminate.
  - destruct (String.prefix "/" (normpath filename)) eqn:Habs; [discriminate|].
    destruct (String.eqb_spec (normpath filename) "..") as [Hup | Hup]; [discriminate|].
    destruct (String.prefix "../" (normpath filename)) eqn:Hclimb; [discriminate|].
    cbn [orb]. intros [= <-]. exists (normpath filename).
    split; [reflexivity|]. split; [exact Habs|].
    apply normpath_no_dotdot; assumption.
Qed.

(** ** Static files *)

(** A run of [serve] is one call of [send_from_directory], and changes
    nothing. *)
Lemma serve_run cfg path w :
  serve cfg path w
  = (send_from_directory (files w) (static_folder cfg)
       (if negb (String.eqb path "")
           && path_exists (files w) (static_folder cfg ++ "/" ++ path)
        then path else "index.html"),
     w).
Proof.
  unfold serve, bind, read_files, lift.
  destruct (negb (String.eqb path "")
            && path_exists (files w) (static_folder cfg ++ "/" ++ path));
    reflexivity.
Qed.

Lemma send_from_directory_Ret fs directory path rv :
  send_from_directory fs directory path = Ret rv ->
  exists full data,
    safe_join directory path = Some full
    /\ isfile fs full = Some data
    /\ rv = {| resp_body := FileContents full data; status := 200 |}.
Proof.
  unfold send_from_directory.
  destruct (safe_join directory path) as [full|] eqn:Hjoin; [|discriminate].
  destruct (isfile fs full) as [data|] eqn:Hfile; [|discriminate].
  intros [= <-]. exists full, data. auto.
Qed.


(** X2: when the path is empty, or nothing exists at it in the static folder,
    and the entry document, the safe join of the static folder and
    [index.html], is a regular file, [serve] returns the entry document with
    status 200 and changes nothing. *)
Lemma serve_fallback cfg U w path entry data :
  path = "" \/ path_exists (files w) (static_folder cfg ++ "/" ++ path) = false ->
  safe_join (static_folder cfg) "index.html" = Some entry ->
  isfile (files w) entry = Some data ->
  view cfg U (Serve path) w
  = (Ret {| resp_body := FileContents entry data; status := 200 |}, w).
Proof.
  intros Hpath Hentry Hindex. unfold view. rewrite serve_run.
  assert (Hcond : negb (String.eqb path "")
                  && path_exists (files w) (static_folder cfg ++ "/" ++ path) = false).
  { destruct Hpath as [-> | ->]; [reflexivity | apply andb_false_r]. }
  rewrite Hcond. unfold send_from_directory. rewrite Hentry, Hindex. reflexivity.
Qed.

(** X3: when the path is not empty, something exists at it in the static
    folder, and its safe join with the static folder is a regular file,
    [serve] returns that file with status 200 and changes nothing. *)
Lemma serve_file cfg U w path full data :
  path <> "" ->
  path_exists (files w) (static_folder cfg ++ "/" ++ path) = true ->
  safe_join (static_folder cfg) path = Some full ->
  isfile (files w) full = Some data ->
  view cfg U (Serve path) w
  = (Ret {| resp_body := FileContents full data; status := 200 |}, w).
Proof.
  intros Hpath Hexists Hjoin Hfile. unfold view. rewrite serve_run.
  apply String.eqb_neq in Hpath. rewrite Hpath, Hexists. cbn [negb andb].
  unfold send_from_directory. rewrite Hjoin, Hfile. reflexivity.
Qed.

(** A folder exists for [os.path.exists], and is not a file that
    [send_from_directory] can send. *)
Lemma serve_directory cfg U w path full :
  path <> "" ->
  path_exists (files w) (static_folder cfg ++ "/" ++ path) = true ->
  safe_join (static_folder cfg) path = Some full ->
  isfile (files w) full = None ->
  view cfg U (Serve path) w = (Raise NotFound, w).
Proof.
  intros Hpath Hexists Hjoin Hfile. unfold view. rewrite serve_run.
  apply String.eqb_neq in Hpath. rewrite Hpath, Hexists. cbn [negb andb].
  unfold send_from_directory. rewrite Hjoin, Hfile. reflexivity.
Qed.

(** A path with a trailing slash exists when it names a folder, and no
    folder is a file to send: GET /images/ is answered like GET /images. *)
Example serve_trailing_slash :
  path_exists Sample.disk "static/images/" = true
  /\ view Sample.cfg Sample.all_succeed (Serve "images/") Sample.w0
     = (Raise NotFound, Sample.w0).
Proof.
  split; [reflexivity|].
  apply (serve_directory Sample.cfg Sample.all_succeed Sample.w0 "images/"
           "static/images");
    [discriminate | reflexivity | reflexivity | reflexivity].
Qed.

(** C7, on the request where it fails: GET /images, where [images] is a
    folder of the static folder and [index.html] is in place.  The path is
    not empty and names no file, yet [os.path.exists] holds of it, so the
    view hands it to [send_from_directory], which raises [NotFound]: the
    answer is the 404 payload, not the entry document with status 200. *)
Theorem serve_existing_directory :
  Sample.disk !! "static/images" = Some Dir
  /\ Sample.disk !! "static/index.html" = Some (File [Byte.x3c; Byte.x21])
  /\ view Sample.cfg Sample.all_succeed (Serve "images") Sample.w0
     = (Raise NotFound, Sample.w0)
  /\ (handle_request Sample.cfg Sample.all_succeed (fun e => e) (Serve "images")
        Sample.w0).1
     = {| resp_body := Json (PDict [("error", PStr (str NotFound))]); status := 404 |}.
Proof.
  assert (Hdir : Sample.disk !! "static/images" = Some Dir) by reflexivity.
  assert (Hview : view Sample.cfg Sample.all_succeed (Serve "images") Sample.w0
                  = (Raise NotFound, Sample.w0)).
  { apply (serve_directory Sample.cfg Sample.all_succeed Sample.w0 "images"
             "static/images");
      [discriminate | reflexivity | reflexivity | reflexivity]. }
  split; [exact Hdir|]. split; [reflexivity|]. split; [exact Hview|].
  unfold handle_request. rewrite Hview. reflexivity.
Qed.

(** ** Exceptions that leave a view *)

(** C8, as amended: when one of the calls of a request is a weather fetch
    that raises an error [e] which is not one of werkzeug's HTTP exceptions,
    the view does not catch it: [e] leaves the view, Flask hands it to
    [internal_server_error], and the response is [{"error": s}] with status
    500, [s] the string of the error the handler receives.  Likewise
    [not_found_error] answers a 404 with [{"error": s}] and status 404. *)
Theorem weather_fetch_error cfg U to_handler ep w rv w' l ev e :
  handle_request cfg U to_handler ep w = (rv, w') ->
  calls w' = (calls w ++ l)%list ->
  In ev l ->
  weather_fetch_raises U ev e ->
  is_http e = false ->
  (view cfg U ep w).1 = Raise e
  /\ rv = {| resp_body := Json (PDict [("error", PStr (str (to_handler e)))]);
             status := 500 |}
  /\ (forall e',
        not_found_error e'
        = {| resp_body := Json (PDict [("error", PStr (str e'))]); status := 404 |})
  /\ (forall name description,
        handle_exception to_handler (HTTPException 404 name description)
        = {| resp_body :=
               Json (PDict [("error", PStr (str (HTTPException 404 name description)))]);
             status := 404 |}).
Proof.
  intros Hrun Hcalls Hin Hraises Hhttp.
  assert (Hview : (view cfg U ep w).1 = Raise e).
  { unfold handle_request in Hrun.
    destruct (view cfg U ep w) as [o w1] eqn:Hview.
    assert (w1 = w') by (destruct o; congruence). subst w1. clear Hrun.
    destruct ep as [path | get_json |]; unfold view in Hview.
    - rewrite serve_run in Hview. injection Hview as _ <-.
      new_calls Hcalls; subst l; destruct Hin.
    - unfold get_weather, bind, call, call_fs, lift, log, ret in Hview.
      explore Hview.
      all: inversion Hview; subst; clear Hview.
      all: new_calls Hcalls; subst l; cbn in Hin.
      all: destruct_or?; simplify_eq/=; try contradiction.
      all: same_outcome; reflexivity.
    - unfold weather, bind, call, call_fs, lift, log, ret in Hview.
      explore Hview.
      all: inversion Hview; subst; clear Hview.
      all: new_calls Hcalls; subst l; cbn in Hin.
      all: destruct_or?; simplify_eq/=; try contradiction.
      all: same_outcome; reflexivity. }
  split; [exact Hview|]. split; [|split; reflexivity].
  unfold handle_request in Hrun.
  destruct (view cfg U ep w) as [o w1]. cbn in Hview. subst o.
  injection Hrun as <- _.
  destruct e; try discriminate Hhttp; reflexivity.
Qed.

Lemma weather_fetch_error_witness :
  (view Sample.cfg Sample.forecast_fails (GetWeather Sample.paris) Sample.w0).1
  = Raise Sample.timed_out
  /\ (handle_request Sample.cfg Sample.forecast_fails (fun e => e)
        (GetWeather Sample.paris) Sample.w0).1
     = {| resp_body :=
            Json (PDict [("error",
                    PStr "connection to api.openweathermap.org timed out")]);
          status := 500 |}.
Proof.
  pose (run := handle_request Sample.cfg Sample.forecast_fails (fun e => e)
                 (GetWeather Sample.paris) Sample.w0).
  destruct (weather_fetch_error Sample.cfg Sample.forecast_fails (fun e => e)
              (GetWeather Sample.paris) Sample.w0 run.1 run.2 (calls run.2)
              (Call_get_five_day_forecast Sample.lat Sample.lon (Some "openweather-key"))
              Sample.timed_out)
    as (Hview & Hrv & _).
  - reflexivity.
  - reflexivity.
  - do 4 right. left. reflexivity.
  - reflexivity.
  - reflexivity.
  - split; [exact Hview | exact Hrv].
Defined.

(** C8 as it was stated fails where the fetch raises an HTTP exception: a
    forecast fetch that raises werkzeug's [NotFound] leaves the view like
    any error, but Flask hands it to the handler of its own code, and the
    request is answered with status 404, not 500. *)
Lemma weather_fetch_error_counterexample :
  weather_fetch_raises Sample.forecast_not_found
    (Call_get_five_day_forecast Sample.lat Sample.lon (Some "openweather-key")) NotFound
  /\ In (Call_get_five_day_forecast Sample.lat Sample.lon (Some "openweather-key"))
        (calls (handle_request Sample.cfg Sample.forecast_not_found (fun e => e)
                  (GetWeather Sample.paris) Sample.w0).2)
  /\ (view Sample.cfg Sample.forecast_not_found (GetWeather Sample.paris) Sample.w0).1
     = Raise NotFound
  /\ (handle_request Sample.cfg Sample.forecast_not_found (fun e => e)
        (GetWeather Sample.paris) Sample.w0).1
     = {| resp_body := Json (PDict [("error", PStr (str NotFound))]); status := 404 |}
  /\ status (handle_request Sample.cfg Sample.forecast_not_found (fun e => e)
               (GetWeather Sample.paris) Sample.w0).1
     <> 500.
Proof.
  split; [reflexivity|]. split; [do 4 right; left; reflexivity|].
  split; [reflexivity|]. split; [reflexivity | discriminate].
Qed.

(** C9, as amended: when [request.get_json()] returns a value that is not a
    dict ([None] for one), [data.get('location')] raises [AttributeError]: no
    helper is called, the error leaves the view and the request is answered
    by the handler of 500, not with [{"error": "No location provided."}].
    A request that is answered with that payload had a dict for body, in
    which [location] is missing or null. *)
Theorem get_weather_body_not_a_dict cfg U to_handler data w :
  type_name data <> "dict" ->
  view cfg U (GetWeather (Ret data)) w
  = (Raise (AttributeError ("'" ++ type_name data ++ "' object has no attribute 'get'")),
     w)
  /\ handle_request cfg U to_handler (GetWeather (Ret data)) w
     = ({| resp_body :=
             Json (PDict [("error",
                     PStr (str (to_handler
                                  (AttributeError
                                     ("'" ++ type_name data
                                          ++ "' object has no attribute 'get'")))))]);
           status := 500 |}, w)
  /\ (handle_request cfg U to_handler (GetWeather (Ret data)) w).1
     <> no_location_provided
  /\ (forall get_json w1 w2,
        view cfg U (GetWeather get_json) w1 = (Ret no_location_provided, w2) ->
        exists entries,
          get_json = Ret (PDict entries)
          /\ (lookup_key "location" entries = None
              \/ lookup_key "location" entries = Some PNone)).
Proof.
  intros Hdict.
  assert (Hview : view cfg U (GetWeather (Ret data)) w
                  = (Raise (AttributeError
                              ("'" ++ type_name data ++ "' object has no attribute 'get'")),
                     w)).
  { unfold view, get_weather. rewrite bind_lift_Ret.
    destruct data; try reflexivity. contradiction Hdict. reflexivity. }
  split; [exact Hview|].
  assert (Hreq : handle_request cfg U to_handler (GetWeather (Ret data)) w
                 = (internal_server_error
                      (to_handler
                         (AttributeError
                            ("'" ++ type_name data ++ "' object has no attribute 'get'"))),
                    w)).
  { unfold handle_request. rewrite Hview. reflexivity. }
  split; [exact Hreq|]. split.
  - rewrite Hreq. discriminate.
  - intros get_json w1 w2 Hrun.
    unfold view, get_weather, bind, call, call_fs, lift, log, ret in Hrun.
    explore Hrun.
    all: inversion Hrun; subst; clear Hrun.
    match goal with
    | H : Py.get ?d _ = Ret ?v |- _ => destruct d; try discriminate H; cbn in H
    end.
    eexists. split; [reflexivity|].
    destruct (lookup_key "location" entries) as [value|]; [|left; reflexivity].
    right. f_equal. destruct value; simplify_eq/=; done.
Qed.

Lemma get_weather_body_not_a_dict_witness :
  view Sample.cfg Sample.all_succeed (GetWeather (Ret PNone)) Sample.w0
  = (Raise (AttributeError "'NoneType' object has no attribute 'get'"), Sample.w0)
  /\ handle_request Sample.cfg Sample.all_succeed (fun e => e) (GetWeather (Ret PNone))
       Sample.w0
     = ({| resp_body :=
             Json (PDict [("error",
                     PStr "'NoneType' object has no attribute 'get'")]);
           status := 500 |}, Sample.w0).
Proof.
  destruct (get_weather_body_not_a_dict Sample.cfg Sample.all_succeed (fun e => e)
              PNone Sample.w0) as (Hview & Hreq & _).
  - discriminate.
  - split; [exact Hview | exact Hreq].
Defined.

(** C9 as it was stated fails on a body that cannot be parsed:
    [request.get_json()] does not return [None] there, it raises
    [BadRequest]; line 118 is not reached, and the request is answered with
    status 400, not 500.  A request without a JSON content type is answered
    with status 415 in the same way. *)
Lemma get_weather_body_counterexample :
  request_get_json Unparsable = Raise BadRequest
  /\ request_get_json Unparsable <> Ret PNone
  /\ view Sample.cfg Sample.all_succeed (GetWeather (request_get_json Unparsable))
       Sample.w0
     = (Raise BadRequest, Sample.w0)
  /\ status (handle_request Sample.cfg Sample.all_succeed (fun e => e)
               (GetWeather (request_get_json Unparsable)) Sample.w0).1
     = 400
  /\ status (handle_request Sample.cfg Sample.all_succeed (fun e => e)
               (GetWeather (request_get_json Unparsable)) Sample.w0).1
     <> 500
  /\ status (handle_request Sample.cfg Sample.all_succeed (fun e => e)
               (GetWeather (request_get_json NotJson)) Sample.w0).1
     = 415.
Proof.
  split; [reflexivity|]. split; [discriminate|]. split; [reflexivity|].
  split; [reflexivity|]. split; [discriminate | reflexivity].
Qed.

(** ** Further properties of [serve] *)

Lemma serve_fallback_witness :
  view Sample.cfg Sample.all_succeed (Serve "nothing/../main.js") Sample.w0
  = (Ret {| resp_body := FileContents "static/index.html" [Byte.x3c; Byte.x21];
            status := 200 |}, Sample.w0).
Proof.
  apply (serve_fallback Sample.cfg Sample.all_succeed Sample.w0 "nothing/../main.js"
           "static/index.html" [Byte.x3c; Byte.x21]).
  - right. reflexivity.
  - reflexivity.
  - reflexivity.
Defined.

Lemma serve_file_witness :
  view Sample.cfg Sample.all_succeed (Serve "images/../main.js") Sample.w0
  = (Ret {| resp_body := FileContents "static/main.js" [Byte.x2f; Byte.x2f];
            status := 200 |}, Sample.w0).
Proof.
  apply (serve_file Sample.cfg Sample.all_succeed Sample.w0 "images/../main.js"
           "static/main.js" [Byte.x2f; Byte.x2f]).
  - discriminate.
  - reflexivity.
  - reflexivity.
  - reflexivity.
Defined.



(** X4: when the path is empty or nothing exists at it, and the entry
    document is not a regular file, the fallback of [serve] fails too:
    [NotFound] leaves the view and the request is answered by
    [not_found_error], with status 404. *)
Theorem serve_without_index cfg U to_handler path w :
  path = "" \/ path_exists (files w) (static_folder cfg ++ "/" ++ path) = false ->
  (forall entry,
     safe_join (static_folder cfg) "index.html" = Some entry ->
     isfile (files w) entry = None) ->
  view cfg U (Serve path) w = (Raise NotFound, w)
  /\ handle_request cfg U to_handler (Serve path) w
     = ({| resp_body := Json (PDict [("error", PStr (str NotFound))]); status := 404 |},
        w).
Proof.
  intros Hpath Hindex.
  assert (Hview : view cfg U (Serve path) w = (Raise NotFound, w)).
  { unfold view. rewrite serve_run.
    assert (Hcond : negb (String.eqb path "")
                    && path_exists (files w) (static_folder cfg ++ "/" ++ path)
                    = false).
    { destruct Hpath as [-> | ->]; [reflexivity | apply andb_false_r]. }
    rewrite Hcond. unfold send_from_directory.
    destruct (safe_join (static_folder cfg) "index.html") as [entry|] eqn:Hentry;
      [|reflexivity].
    rewrite (Hindex entry eq_refl). reflexivity. }
  split; [exact Hview|].
  unfold handle_request. rewrite Hview. reflexivity.
Qed.

Lemma serve_without_index_witness :
  handle_request Sample.cfg Sample.all_succeed (fun e => e) (Serve "about")
    {| calls := []; files := Sample.disk_without_index |}
  = ({| resp_body := Json (PDict [("error", PStr (str NotFound))]); status := 404 |},
     {| calls := []; files := Sample.disk_without_index |}).
Proof.
  apply (serve_without_index Sample.cfg Sample.all_succeed (fun e => e) "about"
           {| calls := []; files := Sample.disk_without_index |}).
  - right. reflexivity.
  - intros entry [= <-]. reflexivity.
Defined.

(** X20: [serve] sends no file from outside the static folder: the file of
    every answer it returns is at the static folder joined with a relative
    path that has no component [".."], whatever path was asked for. *)
Theorem serve_stays_in_static_folder cfg U path w rv w' :
  view cfg U (Serve path) w = (Ret rv, w') ->
  exists name data,
    resp_body rv
    = FileContents
        (posix_join (if String.eqb (static_folder cfg) "" then "." else static_folder cfg)
           name)
        data
    /\ String.prefix "/" name = false
    /\ ~ In ".." (split_path name).
Proof.
  unfold view. rewrite serve_run. intros [= Hsend _].
  apply send_from_directory_Ret in Hsend as (full & data & Hjoin & _ & ->).
  apply safe_join_inside in Hjoin as (name & -> & Habs & Hup).
  exists name, data. auto.
Qed.

Lemma serve_stays_in_static_folder_witness :
  exists name data,
    FileContents "static/main.js" [Byte.x2f; Byte.x2f]
    = FileContents (posix_join "static" name) data
    /\ String.prefix "/" name = false
    /\ ~ In ".." (split_path name).
Proof.
  apply (serve_stays_in_static_folder Sample.cfg Sample.all_succeed "images/../main.js"
           Sample.w0
           {| resp_body := FileContents "static/main.js" [Byte.x2f; Byte.x2f];
              status := 200 |}
           Sample.w0).
  reflexivity.
Defined.

(** ** Further properties of [get_weather] *)

(** X5: a body whose [location] is null is answered like a body without
    [location]: the test of line 119 does not tell them apart. *)
Theorem get_weather_null_location cfg U (body : list (string * pyval)) w :
  lookup_key "location" body = Some PNone ->
  view cfg U (GetWeather (Ret (PDict body))) w = (Ret no_location_provided, w).
Proof.
  intros Hkey. unfold view, get_weather, Py.get.
  rewrite bind_lift_Ret, Hkey. reflexivity.
Qed.

Lemma get_weather_null_location_witness :
  view Sample.cfg Sample.all_succeed
    (GetWeather (Ret (PDict [("units", PStr "metric"); ("location", PNone)]))) Sample.w0
  = (Ret no_location_provided, Sample.w0).
Proof.
  apply (get_weather_null_location Sample.cfg Sample.all_succeed
           [("units", PStr "metric"); ("location", PNone)] Sample.w0).
  reflexivity.
Defined.

(** X6: any [location] other than null is handed to the resolver as it is, be it
    an empty string, a number or a list: the first call of the request is
    [get_location_from_google] with the Google key and that value. *)
Theorem get_weather_location_passed_on cfg U (body : list (string * pyval)) location w :
  lookup_key "location" body = Some location ->
  is_None location = false ->
  exists l,
    calls (view cfg U (GetWeather (Ret (PDict body))) w).2
    = (calls w
       ++ Call_get_location_from_google (GOOGLE_API_KEY cfg) (Some location) :: l)%list.
Proof.
  intros Hkey Hloc.
  destruct (view cfg U (GetWeather (Ret (PDict body))) w) as [o w'] eqn:Hrun.
  unfold view, get_weather, Py.get in Hrun.
  rewrite bind_lift_Ret, Hkey, bind_lift_Ret, Hloc in Hrun.
  unfold bind, call, call_fs, lift, log, ret in Hrun.
  explore Hrun.
  all: inversion Hrun; subst; clear Hrun.
  all: cbn; rewrite <- ?app_assoc; cbn; eexists; reflexivity.
Qed.

Lemma get_weather_location_passed_on_witness :
  exists l,
    calls (view Sample.cfg Sample.all_succeed
             (GetWeather (Ret (PDict [("location", PStr "")]))) Sample.w0).2
    = ([] ++ Call_get_location_from_google (Some "google-key") (Some (PStr "")) :: l)%list.
Proof.
  apply (get_weather_location_passed_on Sample.cfg Sample.all_succeed
           [("location", PStr "")] (PStr "") Sample.w0);
    reflexivity.
Defined.

(** X7: when the resolver returns a value that is neither [None] nor made of two
    items, the tuple assignment of line 125 raises; the view does not catch
    it, and the resolver is the only helper that was called. *)
Theorem get_weather_coordinates_not_a_pair cfg U (body : list (string * pyval))
        location location_result e w :
  lookup_key "location" body = Some location ->
  is_None location = false ->
  get_location_from_google U (GOOGLE_API_KEY cfg) (Some location) = Ret location_result ->
  is_None location_result = false ->
  unpack2 location_result = Raise e ->
  view cfg U (GetWeather (Ret (PDict body))) w
  = (Raise e,
     {| calls := calls w
                 ++ [Call_get_location_from_google (GOOGLE_API_KEY cfg) (Some location)];
        files := files w |}).
Proof.
  intros Hkey Hloc Hres Hsome Hunpack.
  unfold view, get_weather, Py.get.
  rewrite bind_lift_Ret, Hkey, bind_lift_Ret, Hloc, Hres, bind_call_Ret, Hsome, Hunpack.
  reflexivity.
Qed.

Lemma get_weather_coordinates_not_a_pair_witness :
  view Sample.cfg Sample.three_coordinates (GetWeather Sample.paris) Sample.w0
  = (Raise (ValueError "too many values to unpack (expected 2)"),
     {| calls := [Call_get_location_from_google (Some "google-key") (Some (PStr "Paris"))];
        files := Sample.disk |}).
Proof.
  apply (get_weather_coordinates_not_a_pair Sample.cfg Sample.three_coordinates
           [("location", PStr "Paris")] (PStr "Paris")
           (PTuple [Sample.lat; Sample.lon; PInt 35])
           (ValueError "too many values to unpack (expected 2)") Sample.w0);
    reflexivity.
Defined.

(** X8: when a photo reference is found and the other helpers return, the
    [photo_path] of the answer depends on [get_photo] only through the test
    of line 134: it is null when [get_photo] returns [None], and the fixed
    ["images/photo.jpg"] otherwise, whatever file name was returned.  The
    request leaves the files as [get_photo] left them. *)
Theorem get_weather_photo_path cfg U (body : list (string * pyval))
        location location_result latitude longitude name place_id current forecast
        photo_reference photo_filename fs w :
  lookup_key "location" body = Some location ->
  is_None location = false ->
  get_location_from_google U (GOOGLE_API_KEY cfg) (Some location) = Ret location_result ->
  is_None location_result = false ->
  unpack2 location_result = Ret (latitude, longitude) ->
  get_location_name U latitude longitude = Ret name ->
  get_place_id_from_coordinates U (GOOGLE_API_KEY cfg) latitude longitude = Ret place_id ->
  get_current_weather U latitude longitude (OPENWEATHER_API_KEY cfg) = Ret current ->
  get_five_day_forecast U latitude longitude (OPENWEATHER_API_KEY cfg) = Ret forecast ->
  get_photo_reference U (GOOGLE_API_KEY cfg) place_id = Ret photo_reference ->
  is_None photo_reference = false ->
  get_photo U photo_reference (GOOGLE_API_KEY cfg) (files w) = (Ret photo_filename, fs) ->
  view cfg U (GetWeather (Ret (PDict body))) w
  = (Ret (jsonify [("current_weather", current); ("forecast", forecast);
                   ("photo_path", if is_None photo_filename then PNone
                                  else PStr "images/photo.jpg");
                   ("location", name)]),
     {| calls := calls w
                 ++ get_weather_calls cfg location latitude longitude place_id
                      photo_reference;
        files := fs |}).
Proof.
  intros Hkey Hloc Hres Hsome Hunpack Hname Hplace Hcur Hfc Href Hfound Hphoto.
  unfold view, get_weather, Py.get.
  rewrite bind_lift_Ret, Hkey, bind_lift_Ret, Hloc, Hres, bind_call_Ret, Hsome, Hunpack.
  rewrite bind_lift_Ret, Hname, bind_call_Ret, Hplace, bind_call_Ret.
  rewrite Hcur, bind_call_Ret, Hfc, bind_call_Ret, Href, bind_call_Ret, Hfound.
  unfold bind, call_fs, log, ret, logged. cbn. rewrite Hphoto.
  rewrite <- !app_assoc.
  destruct (is_None photo_filename); reflexivity.
Qed.

Lemma get_weather_photo_path_witness :
  view Sample.cfg Sample.download_fails (GetWeather Sample.paris) Sample.w0
  = (Ret (jsonify [("current_weather", Sample.sunny); ("forecast", Sample.five_days);
                   ("photo_path", PNone); ("location", PStr "Paris, France")]),
     {| calls := get_weather_calls Sample.cfg (PStr "Paris") Sample.lat Sample.lon
                   (PStr "place-1") (PStr "photo-ref-1");
        files := Sample.disk |}).
Proof.
  apply (get_weather_photo_path Sample.cfg Sample.download_fails
           [("location", PStr "Paris")] (PStr "Paris")
           (PTuple [Sample.lat; Sample.lon]) Sample.lat Sample.lon
           (PStr "Paris, France") (PStr "place-1") Sample.sunny Sample.five_days
           (PStr "photo-ref-1") PNone Sample.disk Sample.w0);
    reflexivity.
Defined.

(** X9: where an answer of [get_weather] without the member [error] comes from:
    the body is a dict with a [location]; the coordinates are the two items
    of what the resolver returned for it; name, place id, weather and
    forecast were fetched for these coordinates, the photo reference for
    that place id; the payload holds the weather, the forecast and the name
    as returned.  Either no photo reference was found, [photo_path] is null,
    six calls were made and no file changed; or [get_photo] was called with
    the reference, the files are as it left them, and [photo_path] is null
    or ["images/photo.jpg"] as it returned [None] or not. *)
Theorem get_weather_success_inversion cfg U get_json w rv w' l :
  view cfg U (GetWeather get_json) w = (Ret rv, w') ->
  member "error" rv = None ->
  calls w' = (calls w ++ l)%list ->
  exists body location location_result latitude longitude name place_id
         current forecast photo_reference photo_path,
    get_json = Ret (PDict body)
    /\ lookup_key "location" body = Some location
    /\ get_location_from_google U (GOOGLE_API_KEY cfg) (Some location) = Ret location_result
    /\ unpack2 location_result = Ret (latitude, longitude)
    /\ get_location_name U latitude longitude = Ret name
    /\ get_place_id_from_coordinates U (GOOGLE_API_KEY cfg) latitude longitude
       = Ret place_id
    /\ get_current_weather U latitude longitude (OPENWEATHER_API_KEY cfg) = Ret current
    /\ get_five_day_forecast U latitude longitude (OPENWEATHER_API_KEY cfg) = Ret forecast
    /\ get_photo_reference U (GOOGLE_API_KEY cfg) place_id = Ret photo_reference
    /\ rv = jsonify [("current_weather", current); ("forecast", forecast);
                     ("photo_path", photo_path); ("location", name)]
    /\ ((is_None photo_reference = true
         /\ photo_path = PNone
         /\ l = take 6 (get_weather_calls cfg location latitude longitude place_id
                          photo_reference)
         /\ files w' = files w)
        \/ (is_None photo_reference = false
            /\ l = get_weather_calls cfg location latitude longitude place_id
                     photo_reference
            /\ exists photo_filename,
                get_photo U photo_reference (GOOGLE_API_KEY cfg) (files w)
                = (Ret photo_filename, files w')
                /\ photo_path = if is_None photo_filename then PNone
                                else PStr "images/photo.jpg")).
Proof.
  intros Hrun Herr Hcalls.
  unfold view, get_weather in Hrun.
  unfold bind, call, call_fs, lift, log, ret in Hrun.
  explore Hrun.
  all: inversion Hrun; subst; clear Hrun.
  all: try discriminate Herr.
  all: new_calls Hcalls; subst l.
  all: match goal with
       | H : Py.get ?d _ = Ret _ |- _ => destruct d; try discriminate H; cbn in H
       end.
  all: match goal with
       | H : match lookup_key ?k ?b with _ => _ end = Ret _ |- _ =>
           destruct (lookup_key k b) eqn:Hkey; simplify_eq/=
       end.
  all: eexists _, _, _, _, _, _, _, _, _, _, _.
  all: repeat match goal with |- _ /\ _ => split end; eauto.
  all: repeat match goal with
              | H : negb _ = true |- _ => apply negb_true_iff in H
              | H : negb _ = false |- _ => apply negb_false_iff in H
              end.
  all: first [ left; repeat split; solve [eauto]
             | right; split; [assumption|]; split; [reflexivity|];
               eexists; split; [eassumption|];
               match goal with
               | H : is_None ?x = _ |- context [is_None ?x] => rewrite H; reflexivity
               end ].
Qed.

Lemma get_weather_success_inversion_witness :
  exists body location location_result latitude longitude name place_id
         current forecast photo_reference photo_path,
    Sample.paris = Ret (PDict body)
    /\ lookup_key "location" body = Some location
    /\ get_location_from_google Sample.all_succeed (Some "google-key") (Some location)
       = Ret location_result
    /\ unpack2 location_result = Ret (latitude, longitude)
    /\ get_location_name Sample.all_succeed latitude longitude = Ret name
    /\ get_place_id_from_coordinates Sample.all_succeed (Some "google-key")
         latitude longitude
       = Ret place_id
    /\ get_current_weather Sample.all_succeed latitude longitude (Some "openweather-key")
       = Ret current
    /\ get_five_day_forecast Sample.all_succeed latitude longitude
         (Some "openweather-key")
       = Ret forecast
    /\ get_photo_reference Sample.all_succeed (Some "google-key") place_id
       = Ret photo_reference
    /\ jsonify [("current_weather", Sample.sunny); ("forecast", Sample.five_days);
                ("photo_path", PStr "images/photo.jpg");
                ("location", PStr "Paris, France")]
       = jsonify [("current_weather", current); ("forecast", forecast);
                  ("photo_path", photo_path); ("location", name)]
    /\ ((is_None photo_reference = true
         /\ photo_path = PNone
         /\ calls (view Sample.cfg Sample.all_succeed (GetWeather Sample.paris)
                     Sample.w0).2
            = take 6 (get_weather_calls Sample.cfg location latitude longitude place_id
                        photo_reference)
         /\ files (view Sample.cfg Sample.all_succeed (GetWeather Sample.paris)
                     Sample.w0).2
            = Sample.disk)
        \/ (is_None photo_reference = false
            /\ calls (view Sample.cfg Sample.all_succeed (GetWeather Sample.paris)
                        Sample.w0).2
               = get_weather_calls Sample.cfg location latitude longitude place_id
                   photo_reference
            /\ exists photo_filename,
                get_photo Sample.all_succeed photo_reference (Some "google-key")
                  Sample.disk
                = (Ret photo_filename,
                   files (view Sample.cfg Sample.all_succeed (GetWeather Sample.paris)
                            Sample.w0).2)
                /\ photo_path = if is_None photo_filename then PNone
                                else PStr "images/photo.jpg")).
Proof.
  apply (get_weather_success_inversion Sample.cfg Sample.all_succeed Sample.paris
           Sample.w0
           (jsonify [("current_weather", Sample.sunny); ("forecast", Sample.five_days);
                     ("photo_path", PStr "images/photo.jpg");
                     ("location", PStr "Paris, France")])
           (view Sample.cfg Sample.all_succeed (GetWeather Sample.paris) Sample.w0).2
           (calls (view Sample.cfg Sample.all_succeed (GetWeather Sample.paris)
                     Sample.w0).2));
    reflexivity.
Defined.

(** X10: the calls of a POST /get_weather request, failed or not, are an
    initial part of one fixed sequence: resolver, name, place id, current
    weather, forecast, photo reference, photo.  No helper is called twice or
    out of turn; the Google helpers get the Google key and the weather
    fetches the OpenWeather key.  Once a second call is made, the
    coordinates of all calls are the two items of what the resolver
    returned, in that order; the place id of the sixth call is what
    [get_place_id_from_coordinates] returned, the reference of the seventh
    what [get_photo_reference] returned. *)
Theorem get_weather_calls_in_order cfg U get_json w o w' l :
  view cfg U (GetWeather get_json) w = (o, w') ->
  calls w' = (calls w ++ l)%list ->
  exists location latitude longitude place_id photo_reference,
    l `prefix_of` get_weather_calls cfg location latitude longitude place_id
                    photo_reference
    /\ ((2 <= List.length l)%nat ->
        exists location_result,
          get_location_from_google U (GOOGLE_API_KEY cfg) (Some location)
          = Ret location_result
          /\ unpack2 location_result = Ret (latitude, longitude))
    /\ ((6 <= List.length l)%nat ->
        get_place_id_from_coordinates U (GOOGLE_API_KEY cfg) latitude longitude
        = Ret place_id)
    /\ ((7 <= List.length l)%nat ->
        get_photo_reference U (GOOGLE_API_KEY cfg) place_id = Ret photo_reference).
Proof.
  intros Hrun Hcalls.
  unfold view, get_weather in Hrun.
  unfold bind, call, call_fs, lift, log, ret in Hrun.
  explore Hrun.
  all: inversion Hrun; subst; clear Hrun.
  all: new_calls Hcalls; subst l.
  all: unfold prefix, get_weather_calls.
  all: eexists _, _, _, _, _; split; [eexists; cbn; reflexivity|].
  all: cbn [List.length]; repeat split; intros Hlen; try lia; eauto.
  Unshelve.
  all: exact PNone.
Qed.

Lemma get_weather_calls_in_order_witness :
  exists location latitude longitude place_id photo_reference,
    calls (view Sample.cfg Sample.forecast_fails (GetWeather Sample.paris) Sample.w0).2
    `prefix_of` get_weather_calls Sample.cfg location latitude longitude place_id
                  photo_reference
    /\ ((2 <= List.length
                (calls (view Sample.cfg Sample.forecast_fails (GetWeather Sample.paris)
                          Sample.w0).2))%nat ->
        exists location_result,
          get_location_from_google Sample.forecast_fails (Some "google-key")
            (Some location)
          = Ret location_result
          /\ unpack2 location_result = Ret (latitude, longitude))
    /\ ((6 <= List.length
                (calls (view Sample.cfg Sample.forecast_fails (GetWeather Sample.paris)
                          Sample.w0).2))%nat ->
        get_place_id_from_coordinates Sample.forecast_fails (Some "google-key")
          latitude longitude
        = Ret place_id)
    /\ ((7 <= List.length
                (calls (view Sample.cfg Sample.forecast_fails (GetWeather Sample.paris)
                          Sample.w0).2))%nat ->
        get_photo_reference Sample.forecast_fails (Some "google-key") place_id
        = Ret photo_reference).
Proof.
  apply (get_weather_calls_in_order Sample.cfg Sample.forecast_fails Sample.paris
           Sample.w0
           (view Sample.cfg Sample.forecast_fails (GetWeather Sample.paris) Sample.w0).1
           (view Sample.cfg Sample.forecast_fails (GetWeather Sample.paris) Sample.w0).2);
    reflexivity.
Defined.

(** ** Further properties of [weather] *)

(** X11: the calls of a GET /weather request are an initial part of one fixed
    sequence: resolver (without a location), current weather, forecast,
    place id, photo reference, photo, name, and the [print] of line 167. *)
Theorem weather_calls_in_order cfg U w o w' l :
  view cfg U Weather w = (o, w') ->
  calls w' = (calls w ++ l)%list ->
  exists latitude longitude place_id photo_reference photo_path name,
    l `prefix_of` weather_calls cfg latitude longitude place_id photo_reference
                    photo_path name.
Proof.
  intros Hrun Hcalls.
  unfold view, weather in Hrun.
  unfold bind, call, call_fs, lift, log, ret in Hrun.
  explore Hrun.
  all: inversion Hrun; subst; clear Hrun.
  all: new_calls Hcalls; subst l.
  all: unfold prefix, weather_calls.
  all: eexists _, _, _, _, _, _, _; cbn; reflexivity.
  Unshelve.
  all: exact PNone.
Qed.

Lemma weather_calls_in_order_witness :
  exists latitude longitude place_id photo_reference photo_path name,
    calls (view Sample.cfg Sample.name_fails Weather Sample.w0).2
    `prefix_of` weather_calls Sample.cfg latitude longitude place_id photo_reference
                  photo_path name.
Proof.
  apply (weather_calls_in_order Sample.cfg Sample.name_fails Sample.w0
           (view Sample.cfg Sample.name_fails Weather Sample.w0).1
           (view Sample.cfg Sample.name_fails Weather Sample.w0).2);
    reflexivity.
Defined.

(** X12: the answer "Unable to retrieve location" of GET /weather is the answer
    to exactly one situation: the resolver returned a value of two items, at
    least one of which is [None]. *)
Theorem weather_error_payload_iff cfg U w :
  (exists w', view cfg U Weather w = (Ret unable_to_retrieve_location, w'))
  <-> (exists location_result latitude longitude,
         get_location_from_google U (GOOGLE_API_KEY cfg) None = Ret location_result
         /\ unpack2 location_result = Ret (latitude, longitude)
         /\ is_None latitude || is_None longitude = true).
Proof.
  split.
  - intros [w' Hrun].
    unfold view, weather in Hrun.
    unfold bind, call, call_fs, lift, log, ret in Hrun.
    explore Hrun.
    all: inversion Hrun; subst; clear Hrun.
    eexists _, _, _. repeat split; eauto.
    match goal with
    | H : negb (is_None ?a) && negb (is_None ?b) = false |- _ =>
        destruct (is_None a), (is_None b); try discriminate H; reflexivity
    end.
  - intros (location_result & latitude & longitude & Hres & Hunpack & Hnone).
    eexists. unfold view, weather.
    rewrite Hres, bind_call_Ret, Hunpack, bind_lift_Ret.
    destruct (is_None latitude), (is_None longitude); try discriminate Hnone;
      reflexivity.
Qed.

Lemma weather_error_payload_iff_witness :
  exists w',
    view Sample.cfg Sample.pair_of_None Weather Sample.w0
    = (Ret unable_to_retrieve_location, w').
Proof.
  apply (proj2 (weather_error_payload_iff Sample.cfg Sample.pair_of_None Sample.w0)).
  exists (PTuple [PNone; PNone]), PNone, PNone.
  repeat split; reflexivity.
Defined.

(** X13: in GET /weather the name is looked up after the photo was fetched: when
    [get_location_name] raises, the request fails with that error, yet
    [get_photo] has already run and the files are as it left them. *)
Theorem weather_name_fails_after_photo cfg U w o w' l latitude longitude e :
  view cfg U Weather w = (o, w') ->
  calls w' = (calls w ++ l)%list ->
  In (Call_get_location_name latitude longitude) l ->
  get_location_name U latitude longitude = Raise e ->
  o = Raise e
  /\ exists photo_reference photo_path,
      In (Call_get_photo photo_reference (GOOGLE_API_KEY cfg)) l
      /\ get_photo U photo_reference (GOOGLE_API_KEY cfg) (files w)
         = (Ret photo_path, files w').
Proof.
  intros Hrun Hcalls Hin Hraises.
  unfold view, weather in Hrun.
  unfold bind, call, call_fs, lift, log, ret in Hrun.
  explore Hrun.
  all: inversion Hrun; subst; clear Hrun.
  all: new_calls Hcalls; subst l; cbn in Hin.
  all: destruct_or?; simplify_eq/=; try contradiction.
  all: same_outcome.
  split; [reflexivity|]. eexists _, _. split; [|eassumption].
  cbn. tauto.
Qed.

Lemma weather_name_fails_after_photo_witness :
  (view Sample.cfg Sample.name_fails Weather Sample.w0).1 = Raise Sample.timed_out
  /\ exists photo_reference photo_path,
      In (Call_get_photo photo_reference (Some "google-key"))
         (calls (view Sample.cfg Sample.name_fails Weather Sample.w0).2)
      /\ get_photo Sample.name_fails photo_reference (Some "google-key") Sample.disk
         = (Ret photo_path, files (view Sample.cfg Sample.name_fails Weather Sample.w0).2).
Proof.
  apply (weather_name_fails_after_photo Sample.cfg Sample.name_fails Sample.w0
           (view Sample.cfg Sample.name_fails Weather Sample.w0).1
           (view Sample.cfg Sample.name_fails Weather Sample.w0).2
           (calls (view Sample.cfg Sample.name_fails Weather Sample.w0).2)
           Sample.lat Sample.lon Sample.timed_out).
  - reflexivity.
  - reflexivity.
  - do 6 right. left. reflexivity.
  - reflexivity.
Defined.

(** ** Properties of both weather views *)

(** X14: neither view catches an exception of a helper: when any call of a
    request raises, be it the resolver, the namer, the place or photo
    lookups, the photo download or a weather fetch, that exception leaves
    the view. *)
Theorem helper_error_not_caught cfg U ep w o w' l ev e :
  view cfg U ep w = (o, w') ->
  calls w' = (calls w ++ l)%list ->
  In ev l ->
  helper_raises U (files w) ev e ->
  o = Raise e.
Proof.
  intros Hrun Hcalls Hin Hraises.
  destruct ep as [path | get_json |]; unfold view in Hrun.
  - rewrite serve_run in Hrun. injection Hrun as _ <-.
    new_calls Hcalls; subst l; destruct Hin.
  - unfold get_weather, bind, call, call_fs, lift, log, ret in Hrun.
    explore Hrun.
    all: inversion Hrun; subst; clear Hrun.
    all: new_calls Hcalls; subst l; cbn in Hin.
    all: destruct_or?; simplify_eq/=; try contradiction.
    all: repeat match goal with
                | H : get_photo ?U ?r ?k ?fs = _, H' : (get_photo ?U ?r ?k ?fs).1 = _ |- _ =>
                    rewrite H in H'; cbn in H'
                end.
    all: simplify_eq/=; same_outcome; reflexivity.
  - unfold weather, bind, call, call_fs, lift, log, ret in Hrun.
    explore Hrun.
    all: inversion Hrun; subst; clear Hrun.
    all: new_calls Hcalls; subst l; cbn in Hin.
    all: destruct_or?; simplify_eq/=; try contradiction.
    all: repeat match goal with
                | H : get_photo ?U ?r ?k ?fs = _, H' : (get_photo ?U ?r ?k ?fs).1 = _ |- _ =>
                    rewrite H in H'; cbn in H'
                end.
    all: simplify_eq/=; same_outcome; reflexivity.
Qed.

Lemma helper_error_not_caught_witness :
  (view Sample.cfg Sample.name_fails (GetWeather Sample.paris) Sample.w0).1
  = Raise Sample.timed_out.
Proof.
  apply (helper_error_not_caught Sample.cfg Sample.name_fails (GetWeather Sample.paris)
           Sample.w0
           (view Sample.cfg Sample.name_fails (GetWeather Sample.paris) Sample.w0).1
           (view Sample.cfg Sample.name_fails (GetWeather Sample.paris) Sample.w0).2
           (calls (view Sample.cfg Sample.name_fails (GetWeather Sample.paris)
                     Sample.w0).2)
           (Call_get_location_name Sample.lat Sample.lon)).
  - reflexivity.
  - reflexivity.
  - right. left. reflexivity.
  - reflexivity.
Defined.

(** X15: the files after a request: those its call of [get_photo] left, and the
    files it started with when [get_photo] is not among its calls.  Nothing
    else in the views touches the file system. *)
Theorem files_after_request cfg U ep w o w' l :
  view cfg U ep w = (o, w') ->
  calls w' = (calls w ++ l)%list ->
  files w' = match List.find is_get_photo l with
             | Some (Call_get_photo photo_reference api_key) =>
                 (get_photo U photo_reference api_key (files w)).2
             | _ => files w
             end.
Proof.
  intros Hrun Hcalls.
  destruct ep as [path | get_json |]; unfold view in Hrun.
  - rewrite serve_run in Hrun. injection Hrun as _ <-.
    new_calls Hcalls; subst l; reflexivity.
  - unfold get_weather, bind, call, call_fs, lift, log, ret in Hrun.
    explore Hrun.
    all: inversion Hrun; subst; clear Hrun.
    all: new_calls Hcalls; subst l; cbn.
    all: try reflexivity.
    all: match goal with
         | H : get_photo _ _ _ _ = _ |- _ => rewrite H; reflexivity
         end.
  - unfold weather, bind, call, call_fs, lift, log, ret in Hrun.
    explore Hrun.
    all: inversion Hrun; subst; clear Hrun.
    all: new_calls Hcalls; subst l; cbn.
    all: try reflexivity.
    all: match goal with
         | H : get_photo _ _ _ _ = _ |- _ => rewrite H; reflexivity
         end.
Qed.

Lemma files_after_request_witness :
  files (view Sample.cfg Sample.all_succeed (GetWeather Sample.paris) Sample.w0).2
  = <["images/photo.jpg" := File Sample.jpeg]> Sample.disk.
Proof.
  rewrite (files_after_request Sample.cfg Sample.all_succeed (GetWeather Sample.paris)
             Sample.w0
             (view Sample.cfg Sample.all_succeed (GetWeather Sample.paris) Sample.w0).1
             (view Sample.cfg Sample.all_succeed (GetWeather Sample.paris) Sample.w0).2
             (calls (view Sample.cfg Sample.all_succeed (GetWeather Sample.paris)
                       Sample.w0).2)
             eq_refl eq_refl).
  reflexivity.
Defined.

(** X16: every answer that a view returns has status 200, and is one of few:
    [serve] returns the contents of a file; [get_weather] one of the two
    error payloads or a payload of four members whose [photo_path] is null
    or ["images/photo.jpg"]; [weather] the "Unable to retrieve location"
    payload or a payload of two members. *)
Theorem view_answers cfg U ep w rv w' :
  view cfg U ep w = (Ret rv, w') ->
  status rv = 200
  /\ match ep with
     | Serve _ => exists path data, resp_body rv = FileContents path data
     | GetWeather _ =>
         rv = no_location_provided
         \/ rv = unable_to_retrieve_location
         \/ exists current forecast photo_path name,
             rv = jsonify [("current_weather", current); ("forecast", forecast);
                           ("photo_path", photo_path); ("location", name)]
             /\ (photo_path = PNone \/ photo_path = PStr "images/photo.jpg")
     | Weather =>
         rv = unable_to_retrieve_location
         \/ exists current forecast,
             rv = jsonify [("current_weather", current); ("forecast", forecast)]
     end.
Proof.
  intros Hrun.
  destruct ep as [path | get_json |]; unfold view in Hrun.
  - rewrite serve_run in Hrun. injection Hrun as Hsend _.
    apply send_from_directory_Ret in Hsend as (full & data & _ & _ & ->).
    split; [reflexivity | eexists _, _; reflexivity].
  - unfold get_weather, bind, call, call_fs, lift, log, ret in Hrun.
    explore Hrun.
    all: inversion Hrun; subst; clear Hrun.
    all: split; [reflexivity|].
    all: first [ left; reflexivity
               | right; left; reflexivity
               | right; right; eexists _, _, _, _; split; [reflexivity|];
                 first [left; reflexivity | right; reflexivity] ].
  - unfold weather, bind, call, call_fs, lift, log, ret in Hrun.
    explore Hrun.
    all: inversion Hrun; subst; clear Hrun.
    all: split; [reflexivity|].
    all: first [ left; reflexivity | right; eexists _, _; reflexivity ].
Qed.

Lemma view_answers_witness :
  status (jsonify [("current_weather", Sample.sunny); ("forecast", Sample.five_days)])
  = 200
  /\ (jsonify [("current_weather", Sample.sunny); ("forecast", Sample.five_days)]
      = unable_to_retrieve_location
      \/ exists current forecast,
          jsonify [("current_weather", Sample.sunny); ("forecast", Sample.five_days)]
          = jsonify [("current_weather", current); ("forecast", forecast)]).
Proof.
  apply (view_answers Sample.cfg Sample.all_succeed Weather Sample.w0
           (jsonify [("current_weather", Sample.sunny); ("forecast", Sample.five_days)])
           (view Sample.cfg Sample.all_succeed Weather Sample.w0).2).
  reflexivity.
Defined.

(** X17: where an exception of [get_weather] comes from: [request.get_json()]
    raised it; or the body is not a dict, and [data.get] raised it before
    any call; or the resolver returned a value that does not unpack into two,
    and the tuple assignment raised it after that one call; or the last call
    of the request raised it.  The view raises in no other case. *)
Theorem get_weather_raise_sources cfg U get_json w e w' l :
  view cfg U (GetWeather get_json) w = (Raise e, w') ->
  calls w' = (calls w ++ l)%list ->
  (get_json = Raise e /\ l = [])
  \/ (exists data, get_json = Ret data /\ Py.get data "location" = Raise e /\ l = [])
  \/ (exists location location_result,
        l = [Call_get_location_from_google (GOOGLE_API_KEY cfg) (Some location)]
        /\ get_location_from_google U (GOOGLE_API_KEY cfg) (Some location)
           = Ret location_result
        /\ unpack2 location_result = Raise e)
  \/ (exists ev, last l = Some ev /\ helper_raises U (files w) ev e).
Proof.
  intros Hrun Hcalls.
  unfold view, get_weather in Hrun.
  unfold bind, call, call_fs, lift, log, ret in Hrun.
  explore Hrun.
  all: inversion Hrun; subst; clear Hrun.
  all: new_calls Hcalls; subst l.
  all: first [ left; split; reflexivity
             | right; left; eexists; repeat split; solve [eauto]
             | right; right; left; eexists _, _; repeat split; solve [eauto]
             | right; right; right; eexists; split; [reflexivity|]; cbn;
               first [ assumption
                     | match goal with
                       | H : get_photo _ _ _ _ = _ |- _ => rewrite H; reflexivity
                       end ] ].
Qed.

Lemma get_weather_raise_sources_witness :
  (Sample.paris = Raise Sample.timed_out
   /\ calls (view Sample.cfg Sample.forecast_fails (GetWeather Sample.paris)
               Sample.w0).2 = [])
  \/ (exists data,
        Sample.paris = Ret data /\ Py.get data "location" = Raise Sample.timed_out
        /\ calls (view Sample.cfg Sample.forecast_fails (GetWeather Sample.paris)
                    Sample.w0).2 = [])
  \/ (exists location location_result,
        calls (view Sample.cfg Sample.forecast_fails (GetWeather Sample.paris)
                 Sample.w0).2
        = [Call_get_location_from_google (Some "google-key") (Some location)]
        /\ get_location_from_google Sample.forecast_fails (Some "google-key")
             (Some location)
           = Ret location_result
        /\ unpack2 location_result = Raise Sample.timed_out)
  \/ (exists ev,
        last (calls (view Sample.cfg Sample.forecast_fails (GetWeather Sample.paris)
                       Sample.w0).2) = Some ev
        /\ helper_raises Sample.forecast_fails Sample.disk ev Sample.timed_out).
Proof.
  apply (get_weather_raise_sources Sample.cfg Sample.forecast_fails Sample.paris
           Sample.w0 Sample.timed_out
           (view Sample.cfg Sample.forecast_fails (GetWeather Sample.paris) Sample.w0).2
           (calls (view Sample.cfg Sample.forecast_fails (GetWeather Sample.paris)
                     Sample.w0).2));
    reflexivity.
Defined.

(** X18: where an exception of [weather] comes from: the resolver returned a
    value that does not unpack into two ([None] for one), and the tuple
    assignment of line 159 raised it; or the last call of the request
    raised it. *)
Theorem weather_raise_sources cfg U w e w' l :
  view cfg U Weather w = (Raise e, w') ->
  calls w' = (calls w ++ l)%list ->
  (exists location_result,
     l = [Call_get_location_from_google (GOOGLE_API_KEY cfg) None]
     /\ get_location_from_google U (GOOGLE_API_KEY cfg) None = Ret location_result
     /\ unpack2 location_result = Raise e)
  \/ (exists ev, last l = Some ev /\ helper_raises U (files w) ev e).
Proof.
  intros Hrun Hcalls.
  unfold view, weather in Hrun.
  unfold bind, call, call_fs, lift, log, ret in Hrun.
  explore Hrun.
  all: inversion Hrun; subst; clear Hrun.
  all: new_calls Hcalls; subst l.
  all: first [ left; eexists; repeat split; solve [eauto]
             | right; eexists; split; [reflexivity|]; cbn;
               first [ assumption
                     | match goal with
                       | H : get_photo _ _ _ _ = _ |- _ => rewrite H; reflexivity
                       end ] ].
Qed.

Lemma weather_raise_sources_witness :
  (exists location_result,
     calls (view Sample.cfg Sample.no_location Weather Sample.w0).2
     = [Call_get_location_from_google (Some "google-key") None]
     /\ get_location_from_google Sample.no_location (Some "google-key") None
        = Ret location_result
     /\ unpack2 location_result
        = Raise (TypeError "cannot unpack non-iterable NoneType object"))
  \/ (exists ev,
        last (calls (view Sample.cfg Sample.no_location Weather Sample.w0).2) = Some ev
        /\ helper_raises Sample.no_location Sample.disk ev
             (TypeError "cannot unpack non-iterable NoneType object")).
Proof.
  apply (weather_raise_sources Sample.cfg Sample.no_location Sample.w0
           (TypeError "cannot unpack non-iterable NoneType object")
           (view Sample.cfg Sample.no_location Weather Sample.w0).2
           (calls (view Sample.cfg Sample.no_location Weather Sample.w0).2));
    reflexivity.
Defined.

